(** * Lanternfly image uploader: a shallow embedding of [app.py]

    The development follows the module top to bottom: Python strings and the
    string helpers the module calls, the naming function
    ([timestamped_name]), the storage gateway with the three operations the
    module uses, the start-up sequence, and the two JSON handlers ([upload],
    [gallery]).  Statements about the program come after the definitions. *)

From Stdlib Require Import String Ascii NArith.
From stdpp Require Import gmap list sorting strings.

Local Open Scope N_scope.

(** ** Python strings

    A Python [str] is a sequence of Unicode code points; a [bytes] object is
    a sequence of numbers below 256.  Both are lists of [N] here.  [py]
    turns a literal of the source into its code points. *)

Abbreviation str := (list N).
Abbreviation bytes := (list N) (only parsing).

Definition py (s : string) : str :=
  (fun a => N_of_ascii a) <$> list_ascii_of_string s.

Module Str.

(** [s.startswith(prefix)] *)
Fixpoint startswith (s prefix : str) : bool :=
  match prefix, s with
  | [], _ => true
  | p :: prefix', c :: s' => (c =? p) && startswith s' prefix'
  | _ :: _, [] => false
  end.

(** [s.replace(old, new)] for a one-character [old]. *)
Definition replace (old : N) (new : str) (s : str) : str :=
  flat_map (fun c => if c =? old then new else [c]) s.

(** [str.isspace] on the ASCII range, which is all [secure_filename]
    hands to [split]: TAB..CR, FS..US and the space. *)
Definition isspace (c : N) : bool :=
  ((9 <=? c) && (c <=? 13)) || ((28 <=? c) && (c <=? 32)).

(** [s.split()]: the maximal runs of non-whitespace characters.  [cur] is
    the run being read, last character first. *)
Fixpoint split_from (cur : str) (s : str) : list str :=
  match s with
  | [] => match cur with [] => [] | _ => [rev cur] end
  | c :: s' =>
      if isspace c
      then match cur with
           | [] => split_from [] s'
           | _ => rev cur :: split_from [] s'
           end
      else split_from (c :: cur) s'
  end.

Definition split (s : str) : list str := split_from [] s.

(** [sep.join(parts)] *)
Fixpoint join (sep : str) (parts : list str) : str :=
  match parts with
  | [] => []
  | [w] => w
  | w :: ws => w ++ sep ++ join sep ws
  end.

(** [s.strip(chars)] *)
Fixpoint lstrip (chars : str) (s : str) : str :=
  match s with
  | [] => []
  | c :: s' => if bool_decide (c ∈ chars) then lstrip chars s' else s
  end.

Definition rstrip (chars : str) (s : str) : str :=
  rev (lstrip chars (rev s)).

Definition strip (chars : str) (s : str) : str :=
  rstrip chars (lstrip chars s).

(** [s.upper()] on ASCII text. *)
Definition upper_char (c : N) : N :=
  if (97 <=? c) && (c <=? 122) then c - 32 else c.

Definition upper (s : str) : str := upper_char <$> s.

(** [s.split(sep)[0]] for a one-character [sep]. *)
Fixpoint before (sep : N) (s : str) : str :=
  match s with
  | [] => []
  | c :: s' => if c =? sep then [] else c :: before sep s'
  end.

(** [a <= b] on [str]: code point by code point, a proper prefix first. *)
Fixpoint leb (a b : str) : bool :=
  match a, b with
  | [], _ => true
  | _ :: _, [] => false
  | x :: a', y :: b' =>
      if x <? y then true else if y <? x then false else leb a' b'
  end.

Definition le (a b : str) : Prop := leb a b = true.

(** The order [list.sort(reverse=True)] leaves a list in: no element is
    smaller than a later one. *)
Definition ge (a b : str) : Prop := le b a.

Global Instance le_dec a b : Decision (le a b).
Proof. unfold le. apply _. Defined.

Global Instance ge_dec a b : Decision (ge a b).
Proof. unfold ge. apply _. Defined.

Definition is_alpha (c : N) : bool :=
  ((65 <=? c) && (c <=? 90)) || ((97 <=? c) && (c <=? 122)).

Definition is_digit (c : N) : bool := (48 <=? c) && (c <=? 57).

End Str.

(** ** Exceptions and results *)

Inductive exn_class :=
  | RuntimeError
  | UnicodeEncodeError
  | RequestEntityTooLarge   (* werkzeug.exceptions, an HTTPException *)
  | ResourceExistsError     (* azure.core.exceptions *)
  | ResourceNotFoundError   (* azure.core.exceptions *)
  | OtherException (name : string).

(** An exception object: its class and what [str(e)] gives.  Every class
    above derives from [Exception], so [except Exception] catches each. *)
Record exn := Exn { exn_cls : exn_class; exn_str : str }.

Global Instance exn_class_eq_dec : EqDecision exn_class.
Proof. solve_decision. Defined.

Inductive result (A : Type) :=
  | Ok (a : A)
  | Raise (e : exn).
Arguments Ok {A} a.
Arguments Raise {A} e.

Definition result_bind {A B} (r : result A) (k : A → result B) : result B :=
  match r with
  | Ok a => k a
  | Raise e => Raise e
  end.

(** [[f(x) for x in l]] where [f] may raise: the first exception ends it. *)
Fixpoint result_map {A B} (f : A → result B) (l : list A) : result (list B) :=
  match l with
  | [] => Ok []
  | x :: l' =>
      result_bind (f x) (fun y =>
      result_bind (result_map f l') (fun ys => Ok (y :: ys)))
  end.

(** ** The interpreter's tables and the platform

    [secure_filename] consults the Unicode Character Database (through
    [unicodedata.normalize]) and [os]; neither is part of the module, so the
    tables are a parameter of the development.  ASCII characters decompose
    to themselves and are starters in every version of the database, which
    is fixed in [decomposition] and [combining] below. *)

Inductive os_name := Posix | Nt.

Record Runtime := {
  rt_os : os_name;
  (** full compatibility decomposition of a code point above U+007F *)
  ucd_decomposition : N → str;
  (** canonical combining class of a code point above U+007F *)
  ucd_combining : N → N;
  (** werkzeug's [_windows_device_files], upper case *)
  windows_device_files : list str;
}.

Module Unicode.
Section Unicode.
Variable rt : Runtime.

Definition decomposition (c : N) : str :=
  if c <? 128 then [c] else ucd_decomposition rt c.

Definition combining (c : N) : N :=
  if c <? 128 then 0 else ucd_combining rt c.

(** Canonical ordering: a combining mark moves left past the marks of a
    higher class; [out] is the text so far, last character first. *)
Fixpoint reorder_insert (c : N) (out : str) : str :=
  match out with
  | [] => [c]
  | p :: out' =>
      if combining c <? combining p
      then p :: reorder_insert c out'
      else c :: out
  end.

Definition canonical_order (s : str) : str :=
  rev (fold_left
         (fun out c =>
            if combining c =? 0 then c :: out else reorder_insert c out)
         s []).

(** [unicodedata.normalize("NFKD", s)] *)
Definition normalize_NFKD (s : str) : str :=
  canonical_order (flat_map decomposition s).

End Unicode.
End Unicode.

(** [s.encode("ascii", "ignore").decode("ascii")] *)
Definition encode_ascii_ignore (s : str) : str :=
  filter (fun c => c < 128) s.

(** ** werkzeug.utils.secure_filename *)

Definition os_sep (o : os_name) : N :=
  match o with Posix => 47 | Nt => 92 end.

Definition os_altsep (o : os_name) : option N :=
  match o with Posix => None | Nt => Some 47 end.

(** The class [[A-Za-z0-9_.-]]; [_filename_ascii_strip_re] matches its
    complement. *)
Definition filename_char (c : N) : bool :=
  Str.is_alpha c || Str.is_digit c || (c =? 95) || (c =? 46) || (c =? 45).

Definition filename_ascii_strip (s : str) : str :=
  filter (fun c => filename_char c = true) s.

Section Naming.
Variable rt : Runtime.

Definition secure_filename (filename : str) : str :=
  let filename := Unicode.normalize_NFKD rt filename in
  let filename := encode_ascii_ignore filename in
  let filename :=
    fold_left
      (fun fn sep =>
         match sep with
         | Some sep => Str.replace sep (py " ") fn
         | None => fn
         end)
      [Some (os_sep (rt_os rt)); os_altsep (rt_os rt)] filename in
  let filename :=
    Str.strip (py "._")
      (filename_ascii_strip (Str.join (py "_") (Str.split filename))) in
  match rt_os rt, filename with
  | Nt, _ :: _ =>
      if bool_decide
           (Str.upper (Str.before 46 filename) ∈ windows_device_files rt)
      then py "_" ++ filename
      else filename
  | _, _ => filename
  end.

End Naming.

(** ** datetime.strftime("%Y%m%dT%H%M%S")

    [utcnow] is an input of the handlers: the clock reading of the request.
    The fields of a [datetime] lie in their ranges (a year has at most four
    digits, the other fields two); [%Y] is written with four digits and the
    other fields with two. *)

Record datetime := {
  year : N; month : N; day : N; hour : N; minute : N; second : N;
}.

Definition digit (n : N) : N := 48 + n mod 10.

Definition zero_pad2 (n : N) : str := [digit (n / 10); digit n].

Definition zero_pad4 (n : N) : str :=
  [digit (n / 1000); digit (n / 100); digit (n / 10); digit n].

Definition strftime (dt : datetime) : str :=
  zero_pad4 (year dt) ++ zero_pad2 (month dt) ++ zero_pad2 (day dt)
  ++ py "T"
  ++ zero_pad2 (hour dt) ++ zero_pad2 (minute dt) ++ zero_pad2 (second dt).

Section TimestampedName.
Variable rt : Runtime.

Definition timestamped_name (utcnow : datetime) (filename : str) : str :=
  let ts := strftime utcnow in
  let safe := secure_filename rt filename in
  ts ++ py "-" ++ safe.

End TimestampedName.

(** ** urllib.parse.quote

    [quote(s)] with the default [safe='/']: the UTF-8 bytes of [s], each
    kept if it is in [_ALWAYS_SAFE] or is the slash, and written [%XX]
    otherwise.  A lone surrogate cannot be encoded and raises. *)

Definition utf8_encode_char (c : N) : result bytes :=
  if c <? 128 then Ok [c]
  else if c <? 2048 then
    Ok [N.lor 192 (N.shiftr c 6); N.lor 128 (N.land c 63)]
  else if c <? 65536 then
    if (55296 <=? c) && (c <=? 57343)
    then Raise (Exn UnicodeEncodeError
                  (py "'utf-8' codec can't encode character: surrogates not allowed"))
    else Ok [N.lor 224 (N.shiftr c 12);
             N.lor 128 (N.land (N.shiftr c 6) 63);
             N.lor 128 (N.land c 63)]
  else
    Ok [N.lor 240 (N.shiftr c 18);
        N.lor 128 (N.land (N.shiftr c 12) 63);
        N.lor 128 (N.land (N.shiftr c 6) 63);
        N.lor 128 (N.land c 63)].

(** [s.encode("utf-8", "strict")] *)
Definition utf8_encode (s : str) : result bytes :=
  result_bind (result_map utf8_encode_char s) (fun bs => Ok (concat bs)).

(** [_ALWAYS_SAFE] *)
Definition always_safe (b : N) : bool :=
  Str.is_alpha b || Str.is_digit b
  || (b =? 95) || (b =? 46) || (b =? 45) || (b =? 126).

Definition hex_digit (d : N) : N := if d <? 10 then 48 + d else 55 + d.

(** [_Quoter.__missing__] with [safe='/'] *)
Definition quoter (b : N) : str :=
  if always_safe b || (b =? 47)
  then [b]
  else [37; hex_digit (b / 16); hex_digit (b mod 16)].

Definition quote (s : str) : result str :=
  result_bind (utf8_encode s) (fun bs => Ok (flat_map quoter bs)).

(** ** The storage gateway

    The one container the module works with, as the service holds it:
    whether it exists and with which access level, and its blobs by name.
    [faults] says which calls the service currently fails, and with what
    (an outage, a refused credential, a throttled request).  [client_error]
    is the SDK's own check of the connection string and the container name
    when the clients are built. *)

Inductive PublicAccess := Private | PublicBlob | PublicContainer.

Record Blob := {
  blob_data : bytes;
  blob_content_type : option str;
}.

Inductive gateway_op := OpCreateContainer | OpUploadBlob | OpListBlobs.

Record Gateway := {
  container : option PublicAccess;
  blobs : gmap str Blob;
  faults : gateway_op → option exn;
  client_error : str → str → option exn;
}.

Definition set_container (acc : PublicAccess) (gw : Gateway) : Gateway :=
  {| container := Some acc; blobs := blobs gw; faults := faults gw;
     client_error := client_error gw |}.

Definition put_blob (name : str) (b : Blob) (gw : Gateway) : Gateway :=
  {| container := container gw;
     blobs := <[name := b]> (blobs gw);
     faults := faults gw;
     client_error := client_error gw |}.

(** Code that talks to the gateway: it reads and changes the gateway's
    state, and returns or raises. *)
Definition M (A : Type) : Type := Gateway → result A * Gateway.

Definition ret {A} (a : A) : M A := fun gw => (Ok a, gw).

Definition raise {A} (e : exn) : M A := fun gw => (Raise e, gw).

Definition bind {A B} (m : M A) (k : A → M B) : M B :=
  fun gw =>
    match m gw with
    | (Ok a, gw') => k a gw'
    | (Raise e, gw') => (Raise e, gw')
    end.

Definition lift {A} (r : result A) : M A := fun gw => (r, gw).

(** [try: body / except cls: handler]; [catches e] says whether the clause
    matches the exception. *)
Definition try_except {A} (body : M A) (catches : exn → bool)
    (handler : exn → M A) : M A :=
  fun gw =>
    match body gw with
    | (Ok a, gw') => (Ok a, gw')
    | (Raise e, gw') => if catches e then handler e gw' else (Raise e, gw')
    end.

(** stdpp's monad notations, [x ← m; k] and [m;; k], at [M]. *)
Global Instance M_ret : MRet M := @ret.
Global Instance M_bind : MBind M := fun A B k m => bind m k.

Definition except_Exception (e : exn) : bool := true.

Definition except_ResourceExistsError (e : exn) : bool :=
  bool_decide (exn_cls e = ResourceExistsError).

(** [BlobServiceClient.from_connection_string(conn)
    .get_container_client(name)] *)
Definition get_container_client (conn name : str) : M unit :=
  fun gw =>
    match client_error gw conn name with
    | Some e => (Raise e, gw)
    | None => (Ok tt, gw)
    end.

(** [cc.create_container(public_access=acc)] *)
Definition create_container (acc : PublicAccess) : M unit :=
  fun gw =>
    match faults gw OpCreateContainer with
    | Some e => (Raise e, gw)
    | None =>
        match container gw with
        | Some _ =>
            (Raise (Exn ResourceExistsError
                      (py "The specified container already exists.")), gw)
        | None => (Ok tt, set_container acc gw)
        end
    end.

(** [cc.get_blob_client(name).upload_blob(data, overwrite=True,
    content_settings=ContentSettings(content_type=ct))] *)
Definition upload_blob (name : str) (data : bytes) (ct : option str) : M unit :=
  fun gw =>
    match faults gw OpUploadBlob with
    | Some e => (Raise e, gw)
    | None =>
        match container gw with
        | None =>
            (Raise (Exn ResourceNotFoundError
                      (py "The specified container does not exist.")), gw)
        | Some _ =>
            (Ok tt,
             put_blob name {| blob_data := data; blob_content_type := ct |} gw)
        end
    end.

(** [[b.name for b in cc.list_blobs()]]: the paged iterator either runs to
    the end or raises on the way, and then nothing it gave is kept. *)
Definition list_blobs : M (list str) :=
  fun gw =>
    match faults gw OpListBlobs with
    | Some e => (Raise e, gw)
    | None =>
        match container gw with
        | None =>
            (Raise (Exn ResourceNotFoundError
                      (py "The specified container does not exist.")), gw)
        | Some _ => (Ok (fst <$> map_to_list (blobs gw)), gw)
        end
    end.

(** ** Requests and responses *)

(** A werkzeug [FileStorage]. *)
Record FileStorage := {
  filename : str;
  mimetype : option str;
  stream : bytes;
}.

Record Request := {
  (** size of the body in bytes *)
  content_length : N;
  (** the file parts of the form, by field name *)
  form_files : gmap str FileStorage;
}.

Inductive json :=
  | JBool (b : bool)
  | JStr (s : str)
  | JList (l : list str).

(** What a view returns: the keyword arguments of [jsonify] (or the text of
    a plain [Response]) and the status; a bare [jsonify(...)] is a 200. *)
Inductive body :=
  | Json (fields : list (string * json))
  | Text (s : str).

Record Response := {
  resp_body : body;
  status : N;
}.

Definition jsonify (fields : list (string * json)) : body := Json fields.

Definition field (k : string) (r : Response) : option json :=
  match resp_body r with
  | Json fields => snd <$> List.find (fun kv => String.eqb (fst kv) k) fields
  | Text _ => None
  end.

(** [app.config["MAX_CONTENT_LENGTH"]] *)
Definition MAX_CONTENT_LENGTH : N := 10 * 1024 * 1024.

(** [request.files]: werkzeug parses the form on first access, and refuses
    a body longer than [MAX_CONTENT_LENGTH] there, by raising. *)
Definition request_files (req : Request) : M (gmap str FileStorage) :=
  if MAX_CONTENT_LENGTH <? content_length req
  then raise (Exn RequestEntityTooLarge
                (py "413 Request Entity Too Large: The data value transmitted exceeds the capacity limit."))
  else ret (form_files req).

(** ** Module initialisation *)

Record App := {
  container_url : str;
}.

(** Truth value of [os.environ.get(k)]: set and not empty. *)
Definition truthy (v : option str) : bool :=
  match v with
  | Some (_ :: _) => true
  | _ => false
  end.

Definition startup (environ : gmap str str) : M App :=
  let STORAGE_ACCOUNT_URL := environ !! py "STORAGE_ACCOUNT_URL" in
  let AZURE_STORAGE_CONNECTION_STRING :=
    environ !! py "AZURE_STORAGE_CONNECTION_STRING" in
  let IMAGES_CONTAINER :=
    default (py "lanternfly-images") (environ !! py "IMAGES_CONTAINER") in
  if negb (truthy STORAGE_ACCOUNT_URL && truthy AZURE_STORAGE_CONNECTION_STRING)
  then raise (Exn RuntimeError
                (py "Missing required environment vars: STORAGE_ACCOUNT_URL or AZURE_STORAGE_CONNECTION_STRING"))
  else
    get_container_client (default [] AZURE_STORAGE_CONNECTION_STRING)
      IMAGES_CONTAINER;;
    try_except (create_container PublicBlob)
      except_ResourceExistsError (fun _ => ret tt);;
    ret {| container_url :=
             default [] STORAGE_ACCOUNT_URL ++ py "/" ++ IMAGES_CONTAINER |}.

(** ** Helpers and routes

    Each view runs in the gateway monad and returns its response; the
    logging calls ([LOG.info], [LOG.exception]) touch neither the response
    nor the store and are left out. *)

Definition is_image (file : FileStorage) : bool :=
  Str.startswith (default (py "") (mimetype file)) (py "image/").

Section Routes.
Variable rt : Runtime.
Variable app : App.

Definition upload (utcnow : datetime) (req : Request) : M Response :=
  try_except
    (files ← request_files req;
     match files !! py "file" with
     | None =>
         ret {| resp_body := jsonify [("ok", JBool false);
                                      ("error", JStr (py "Missing file"))]%string;
                status := 400 |}
     | Some f =>
         if bool_decide (filename f = py "")
         then ret {| resp_body := jsonify [("ok", JBool false);
                                           ("error", JStr (py "Empty filename"))]%string;
                     status := 400 |}
         else if negb (is_image f)
         then ret {| resp_body := jsonify [("ok", JBool false);
                                           ("error", JStr (py "Only image/* allowed"))]%string;
                     status := 415 |}
         else
           let blob_name := timestamped_name rt utcnow (filename f) in
           upload_blob blob_name (stream f) (mimetype f);;
           quoted ← lift (quote blob_name);
           let url := container_url app ++ py "/" ++ quoted in
           ret {| resp_body := jsonify [("ok", JBool true);
                                        ("url", JStr url)]%string;
                  status := 200 |}
     end)
    except_Exception
    (fun e =>
       ret {| resp_body := jsonify [("ok", JBool false);
                                    ("error", JStr (exn_str e))]%string;
              status := 500 |}).

(** [blobs.sort(reverse=True)] *)
Definition sort_reverse (l : list str) : list str := merge_sort Str.ge l.

Definition gallery : M Response :=
  try_except
    (names ← list_blobs;
     blobs ← lift (result_map
                     (fun name =>
                        result_bind (quote name) (fun quoted =>
                        Ok (container_url app ++ py "/" ++ quoted)))
                     names);
     let blobs := sort_reverse blobs in
     ret {| resp_body := jsonify [("ok", JBool true);
                                  ("gallery", JList blobs)]%string;
            status := 200 |})
    except_Exception
    (fun e =>
       ret {| resp_body := jsonify [("ok", JBool false);
                                    ("error", JStr (exn_str e))]%string;
              status := 500 |}).

Definition health : Response :=
  {| resp_body := Text (py "OK"); status := 200 |}.

End Routes.

(** ** Vocabulary of the statements

    The characters the statements speak of, and the three shapes a JSON
    response of the module takes. *)

(** [/] and [\]. *)
Definition is_path_separator (c : N) : bool := (c =? 47) || (c =? 92).

(** The control characters (general category Cc): C0, DEL and C1. *)
Definition is_control (c : N) : bool :=
  (c <? 32) || ((127 <=? c) && (c <=? 159)).

(** The clock readings the module meets: within the ranges of Python's
    [datetime], from the year 1000 on. *)
Definition valid_datetime (dt : datetime) : Prop :=
  1000 ≤ year dt ∧ year dt ≤ 9999
  ∧ 1 ≤ month dt ∧ month dt ≤ 12
  ∧ 1 ≤ day dt ∧ day dt ≤ 31
  ∧ hour dt ≤ 23 ∧ minute dt ≤ 59 ∧ second dt ≤ 59.

(** [a < b] on [datetime]: field by field, the year first. *)
Definition earlier (a b : datetime) : Prop :=
  year a < year b
  ∨ (year a = year b
     ∧ (month a < month b
        ∨ (month a = month b
           ∧ (day a < day b
              ∨ (day a = day b
                 ∧ (hour a < hour b
                    ∨ (hour a = hour b
                       ∧ (minute a < minute b
                          ∨ (minute a = minute b
                             ∧ second a < second b))))))))).

(** The characters a percent-encoded path is made of: the unreserved
    characters (the hexadecimal digits among them), the slash and the
    percent sign. *)
Definition url_char (c : N) : bool := always_safe c || (c =? 47) || (c =? 37).

(** The surrogate code points, U+D800 to U+DFFF, which UTF-8 does not
    encode. *)
Definition is_surrogate (c : N) : bool := (55296 <=? c) && (c <=? 57343).

(** [jsonify(ok=False, error=error), code] *)
Definition failure (error : str) (code : N) : Response :=
  {| resp_body := jsonify [("ok", JBool false); ("error", JStr error)]%string;
     status := code |}.

(** [jsonify(ok=True, url=url)] *)
Definition uploaded (url : str) : Response :=
  {| resp_body := jsonify [("ok", JBool true); ("url", JStr url)]%string;
     status := 200 |}.

(** [jsonify(ok=True, gallery=urls)] *)
Definition listing (urls : list str) : Response :=
  {| resp_body := jsonify [("ok", JBool true); ("gallery", JList urls)]%string;
     status := 200 |}.

(** What werkzeug raises for a body over the limit, and its [str]. *)
Definition too_large : exn :=
  Exn RequestEntityTooLarge
    (py "413 Request Entity Too Large: The data value transmitted exceeds the capacity limit.").

(** The URL the module builds for a stored name. *)
Definition blob_url (app : App) (name : str) : result str :=
  result_bind (quote name) (fun quoted =>
  Ok (container_url app ++ py "/" ++ quoted)).

(** ** A sample deployment

    Concrete inputs on which the definitions are run: a POSIX host whose
    character database is cut down to ASCII (no code point above U+007F
    has a decomposition or a combining class), a clock reading, a
    configured environment, gateways in several conditions and a few
    requests. *)

Module Sample.

Definition runtime : Runtime :=
  {| rt_os := Posix;
     ucd_decomposition := fun c => [c];
     ucd_combining := fun _ => 0;
     windows_device_files := py <$> ["CON"; "PRN"; "AUX"; "NUL"]%string |}.

(** The same host with the database entries of two letters: u and a with
    diaeresis decompose to the base letter and U+0308, of class 230. *)
Definition umlaut_runtime : Runtime :=
  {| rt_os := Posix;
     ucd_decomposition :=
       fun c => if c =? 252 then [117; 776]
                else if c =? 228 then [97; 776] else [c];
     ucd_combining := fun c => if c =? 776 then 230 else 0;
     windows_device_files := windows_device_files runtime |}.

Definition windows_runtime : Runtime :=
  {| rt_os := Nt;
     ucd_decomposition := ucd_decomposition runtime;
     ucd_combining := ucd_combining runtime;
     windows_device_files := windows_device_files runtime |}.

Definition clock : datetime :=
  {| year := 2024; month := 1; day := 3; hour := 12; minute := 30; second := 45 |}.

Definition environ : gmap str str :=
  {[ py "STORAGE_ACCOUNT_URL" := py "https://acct.blob.core.windows.net";
     py "AZURE_STORAGE_CONNECTION_STRING" := py "UseDevelopmentStorage=true" ]}.

Definition app : App :=
  {| container_url := py "https://acct.blob.core.windows.net/lanternfly-images" |}.

Definition no_faults : gateway_op → option exn := fun _ => None.

Definition any_client : str → str → option exn := fun _ _ => None.

(** No container yet. *)
Definition fresh_gateway : Gateway :=
  {| container := None; blobs := ∅; faults := no_faults; client_error := any_client |}.

(** The container was made earlier, by someone else, without public access. *)
Definition private_gateway : Gateway :=
  {| container := Some Private; blobs := ∅; faults := no_faults; client_error := any_client |}.

Definition empty_blob : Blob := {| blob_data := []; blob_content_type := None |}.

(** A public container holding the two objects of the listing example, and
    one with a name that needs quoting. *)
Definition gateway : Gateway :=
  {| container := Some PublicBlob;
     blobs := {[ py "20240101T000000-a.jpg" := empty_blob;
                 py "20240102T000000-b.jpg" := empty_blob;
                 py "old photo.png" := empty_blob ]};
     faults := no_faults; client_error := any_client |}.

Definition connection_reset : exn :=
  Exn (OtherException "ServiceRequestError") (py "Connection reset by peer").

(** The same store while the service is unreachable. *)
Definition failing_gateway : Gateway :=
  {| container := container gateway;
     blobs := blobs gateway;
     faults := fun _ => Some connection_reset;
     client_error := any_client |}.

Definition photo (name : str) (mime : option str) : FileStorage :=
  {| filename := name; mimetype := mime; stream := [137; 80; 78; 71] |}.

Definition request_with (size : N) (f : FileStorage) : Request :=
  {| content_length := size; form_files := {[ py "file" := f ]} |}.

Definition request_without_file : Request :=
  {| content_length := 120; form_files := ∅ |}.

Definition cat : FileStorage := photo (py "my cat.png") (Some (py "image/png")).

(** [gateway] after [cat] was uploaded at [clock]. *)
Definition stored_gateway : Gateway :=
  put_blob (py "20240103T123045-my_cat.png")
    {| blob_data := stream cat; blob_content_type := mimetype cat |} gateway.

(** The answer of the gallery on [gateway]. *)
Definition gallery_response : Response :=
  listing
    [py "https://acct.blob.core.windows.net/lanternfly-images/old%20photo.png";
     py "https://acct.blob.core.windows.net/lanternfly-images/20240102T000000-b.jpg";
     py "https://acct.blob.core.windows.net/lanternfly-images/20240101T000000-a.jpg"].

(** The answer to the upload of [cat] at [clock]. *)
Definition cat_response : Response :=
  uploaded
    (py "https://acct.blob.core.windows.net/lanternfly-images/20240103T123045-my_cat.png").

(** Another file whose name sanitizes like that of [cat]. *)
Definition cat2 : FileStorage :=
  {| filename := py "my_cat.png"; mimetype := Some (py "image/png");
     stream := [1; 2; 3] |}.

(** [gateway] after [cat2] was uploaded at [clock]. *)
Definition restored_gateway : Gateway :=
  put_blob (py "20240103T123045-my_cat.png")
    {| blob_data := stream cat2; blob_content_type := mimetype cat2 |} gateway.

(** One second after [clock]. *)
Definition later_clock : datetime :=
  {| year := 2024; month := 1; day := 3; hour := 12; minute := 30; second := 46 |}.

Definition dog : FileStorage := photo (py "dog.png") (Some (py "image/png")).

(** [stored_gateway] after [dog] was uploaded at [later_clock]. *)
Definition album : Gateway :=
  put_blob (py "20240103T123046-dog.png")
    {| blob_data := stream dog; blob_content_type := mimetype dog |}
    stored_gateway.

(** The answer of the gallery on [album]. *)
Definition album_response : Response :=
  listing
    [py "https://acct.blob.core.windows.net/lanternfly-images/old%20photo.png";
     py "https://acct.blob.core.windows.net/lanternfly-images/20240103T123046-dog.png";
     py "https://acct.blob.core.windows.net/lanternfly-images/20240103T123045-my_cat.png";
     py "https://acct.blob.core.windows.net/lanternfly-images/20240102T000000-b.jpg";
     py "https://acct.blob.core.windows.net/lanternfly-images/20240101T000000-a.jpg"].


(** An environment without the connection string. *)
Definition incomplete_environ : gmap str str :=
  {[ py "STORAGE_ACCOUNT_URL" := py "https://acct.blob.core.windows.net" ]}.

(** A filename with both separators and two control characters. *)
Definition hostile_filename : str :=
  py "/../..\boot" ++ [0; 27] ++ py ".ini".

End Sample.

(** * Properties *)

(** ** The order on strings *)

Module StrOrder.

Lemma leb_refl a : Str.leb a a = true.
Proof.
  induction a as [|x a IH]; simpl; [done|].
  by rewrite N.ltb_irrefl.
Qed.

Lemma leb_total a b : Str.leb a b = true ∨ Str.leb b a = true.
Proof.
  revert b. induction a as [|x a IH]; intros [|y b]; simpl; auto.
  destruct (N.ltb_spec x y), (N.ltb_spec y x); auto; lia.
Qed.

Lemma leb_trans a b c :
  Str.leb a b = true → Str.leb b c = true → Str.leb a c = true.
Proof.
  revert b c. induction a as [|x a IH]; intros [|y b] [|z c]; simpl; try done.
  destruct (N.ltb_spec x y), (N.ltb_spec y x), (N.ltb_spec y z),
    (N.ltb_spec z y), (N.ltb_spec x z), (N.ltb_spec z x);
    try done; try lia.
  apply IH.
Qed.

Lemma leb_antisym a b :
  Str.leb a b = true → Str.leb b a = true → a = b.
Proof.
  revert b. induction a as [|x a IH]; intros [|y b]; simpl; try done.
  destruct (N.ltb_spec x y), (N.ltb_spec y x); try done; try lia.
  intros Hab Hba. assert (x = y) as -> by lia. f_equal. by apply IH.
Qed.

(** A common prefix does not take part in the comparison. *)
Lemma leb_app p a b : Str.leb (p ++ a) (p ++ b) = Str.leb a b.
Proof.
  induction p as [|x p IH]; simpl; [done|].
  by rewrite N.ltb_irrefl.
Qed.

Global Instance ge_total : Total Str.ge.
Proof. intros a b. unfold Str.ge, Str.le. destruct (leb_total b a); auto. Qed.

Global Instance ge_trans : Transitive Str.ge.
Proof. intros a b c Hab Hbc. unfold Str.ge, Str.le in *. eauto using leb_trans. Qed.

Global Instance ge_antisym : AntiSymm (=) Str.ge.
Proof. intros a b Hab Hba. unfold Str.ge, Str.le in *. by apply leb_antisym. Qed.

End StrOrder.

(** ** Character classes *)

Ltac bools :=
  repeat match goal with
    | H : _ && _ = true |- _ => apply andb_true_iff in H; destruct H
    | H : _ || _ = true |- _ => apply orb_true_iff in H; destruct H
    | H : (_ <=? _) = true |- _ => apply N.leb_le in H
    | H : (_ <? _) = true |- _ => apply N.ltb_lt in H
    | H : (_ =? _) = true |- _ => apply N.eqb_eq in H
    | H : bool_decide _ = true |- _ => apply bool_decide_eq_true in H
    | H : bool_decide _ = false |- _ => apply bool_decide_eq_false in H
    end.

Ltac bool_goal :=
  repeat match goal with
    | |- _ ∧ _ => split
    | |- _ || _ = false => apply orb_false_iff
    | |- _ && _ = false => apply andb_false_iff
    | |- (_ =? _) = false => apply N.eqb_neq
    | |- (_ <? _) = false => apply N.ltb_ge
    | |- (_ <=? _) = false => apply N.leb_gt
    end.

Lemma filename_char_clean c :
  filename_char c = true → is_path_separator c = false ∧ is_control c = false.
Proof.
  unfold filename_char, Str.is_alpha, Str.is_digit, is_path_separator, is_control.
  intros H. bools; bool_goal; try lia; left; bool_goal; lia.
Qed.

Lemma filename_char_always_safe c :
  filename_char c = true → always_safe c = true ∧ c < 128.
Proof.
  unfold filename_char, always_safe, Str.is_alpha, Str.is_digit.
  intros H. split.
  - apply orb_true_iff. by left.
  - bools; lia.
Qed.

Lemma digit_filename_char n : filename_char (digit n) = true.
Proof.
  unfold filename_char, Str.is_digit, digit.
  assert (n mod 10 < 10) as Hd by (by apply N.mod_upper_bound).
  revert Hd. generalize (n mod 10). intros d Hd.
  assert ((48 <=? 48 + d) && (48 + d <=? 57) = true) as ->.
  { apply andb_true_iff. split; apply N.leb_le; lia. }
  by rewrite orb_true_r.
Qed.

(** ** The examples of werkzeug's documentation, and a few more *)

Example secure_filename_movie :
  secure_filename Sample.runtime (py "My cool movie.mov")
  = py "My_cool_movie.mov".
Proof. reflexivity. Qed.

Example secure_filename_passwd :
  secure_filename Sample.runtime (py "../../../etc/passwd") = py "etc_passwd".
Proof. reflexivity. Qed.

Example secure_filename_umlauts :
  secure_filename Sample.umlaut_runtime
    (py "i contain cool " ++ [252] ++ py "ml" ++ [228] ++ py "uts.txt")
  = py "i_contain_cool_umlauts.txt".
Proof. reflexivity. Qed.

Example secure_filename_backslash :
  secure_filename Sample.runtime (py "..\a b\c.png") = py "a_bc.png"
  ∧ secure_filename Sample.windows_runtime (py "..\a b\c.png")
    = py "a_b_c.png".
Proof. split; reflexivity. Qed.

Example secure_filename_device :
  secure_filename Sample.windows_runtime (py "con.txt") = py "_con.txt"
  ∧ secure_filename Sample.runtime (py "con.txt") = py "con.txt".
Proof. split; reflexivity. Qed.

Example strftime_clock : strftime Sample.clock = py "20240103T123045".
Proof. reflexivity. Qed.

Example quote_name :
  quote (py "old photo.png") = Ok (py "old%20photo.png")
  ∧ quote [233; 8364] = Ok (py "%C3%A9%E2%82%AC").
Proof. split; reflexivity. Qed.

Example sort_reverse_names :
  sort_reverse [py "b"; py "a"; py "c"; py "ab"]
  = [py "c"; py "b"; py "ab"; py "a"].
Proof. reflexivity. Qed.

Example startup_missing_settings :
  startup ∅ Sample.fresh_gateway
  = (Raise (Exn RuntimeError
              (py "Missing required environment vars: STORAGE_ACCOUNT_URL or AZURE_STORAGE_CONNECTION_STRING")),
     Sample.fresh_gateway).
Proof. reflexivity. Qed.

Example upload_stores_cat :
  upload Sample.runtime Sample.app Sample.clock
    (Sample.request_with 120 Sample.cat) Sample.gateway
  = (Ok (uploaded
           (py "https://acct.blob.core.windows.net/lanternfly-images/20240103T123045-my_cat.png")),
     Sample.stored_gateway).
Proof. by vm_compute. Qed.

(** ** The naming function keeps to letters, digits and [_ . -] *)

Section NamingFacts.
Variable rt : Runtime.

Lemma lstrip_Forall (P : N → Prop) chars s :
  Forall P s → Forall P (Str.lstrip chars s).
Proof.
  induction 1 as [|c s Hc Hs IH]; simpl; [constructor|].
  case_bool_decide; [done|by constructor].
Qed.

Lemma strip_Forall (P : N → Prop) chars s :
  Forall P s → Forall P (Str.strip chars s).
Proof.
  intros Hs. unfold Str.strip, Str.rstrip.
  by apply Forall_rev, lstrip_Forall, Forall_rev, lstrip_Forall.
Qed.

Lemma filename_ascii_strip_chars s :
  Forall (λ c, filename_char c = true) (filename_ascii_strip s).
Proof.
  apply Forall_forall. intros c Hc.
  apply list_elem_of_filter in Hc. tauto.
Qed.

Lemma secure_filename_chars fn :
  Forall (λ c, filename_char c = true) (secure_filename rt fn).
Proof.
  unfold secure_filename. cbv zeta.
  match goal with |- context [Str.strip ?cs ?t] => set (s := Str.strip cs t) end.
  assert (Forall (λ c, filename_char c = true) s) as Hs
    by apply strip_Forall, filename_ascii_strip_chars.
  destruct (rt_os rt), s as [|c s']; try done.
  case_bool_decide; [|done].
  change (py "_" ++ c :: s') with (95 :: c :: s'). by constructor.
Qed.

Lemma strftime_chars dt : Forall (λ c, filename_char c = true) (strftime dt).
Proof.
  unfold strftime, zero_pad4, zero_pad2.
  repeat (apply Forall_app_2 || apply Forall_cons_2 || apply Forall_nil_2
          || apply digit_filename_char || reflexivity).
Qed.

Lemma strftime_length dt : length (strftime dt) = 15%nat.
Proof. reflexivity. Qed.

Lemma timestamped_name_chars utcnow fn :
  Forall (λ c, filename_char c = true) (timestamped_name rt utcnow fn).
Proof.
  unfold timestamped_name. cbv zeta.
  apply Forall_app_2; [apply strftime_chars|].
  apply Forall_app_2; [by repeat constructor|apply secure_filename_chars].
Qed.

End NamingFacts.

(** ** Percent-encoding leaves such names as they are *)

Lemma utf8_encode_ascii s : Forall (λ c, c < 128) s → utf8_encode s = Ok s.
Proof.
  unfold utf8_encode.
  induction 1 as [|c s Hc Hs IH]; simpl; [done|].
  unfold utf8_encode_char at 1. apply N.ltb_lt in Hc. rewrite Hc. simpl.
  destruct (result_map utf8_encode_char s) as [bs|e]; simpl in *; [|done].
  by inversion IH; subst.
Qed.

Lemma flat_map_quoter_safe s :
  Forall (λ c, always_safe c = true) s → flat_map quoter s = s.
Proof.
  induction 1 as [|c s Hc Hs IH]; simpl; [done|].
  unfold quoter at 1. rewrite Hc. simpl. by rewrite IH.
Qed.

Lemma quote_filename_chars s :
  Forall (λ c, filename_char c = true) s → quote s = Ok s.
Proof.
  intros Hs. unfold quote.
  rewrite utf8_encode_ascii.
  - simpl. rewrite flat_map_quoter_safe; [done|].
    eapply Forall_impl; [exact Hs|]. intros c Hc.
    by apply filename_char_always_safe.
  - eapply Forall_impl; [exact Hs|]. intros c Hc.
    by apply filename_char_always_safe.
Qed.

(** ** The upload handler, case by case *)

Section UploadCases.
Variable rt : Runtime.
Variable app : App.

Lemma upload_cases utcnow req gw :
  upload rt app utcnow req gw =
    if MAX_CONTENT_LENGTH <? content_length req
    then (Ok (failure (exn_str too_large) 500), gw)
    else
      match form_files req !! py "file" with
      | None => (Ok (failure (py "Missing file") 400), gw)
      | Some f =>
          if bool_decide (filename f = py "")
          then (Ok (failure (py "Empty filename") 400), gw)
          else if negb (is_image f)
          then (Ok (failure (py "Only image/* allowed") 415), gw)
          else
            let blob_name := timestamped_name rt utcnow (filename f) in
            match upload_blob blob_name (stream f) (mimetype f) gw with
            | (Ok _, gw') =>
                (Ok (uploaded (container_url app ++ py "/" ++ blob_name)), gw')
            | (Raise e, gw') => (Ok (failure (exn_str e) 500), gw')
            end
      end.
Proof.
  unfold upload, try_except, request_files, mbind, M_bind, bind.
  destruct (MAX_CONTENT_LENGTH <? content_length req); [done|].
  unfold ret at 1.
  destruct (form_files req !! py "file") as [f|]; [|done].
  case_bool_decide; [done|].
  destruct (is_image f); [|done].
  change (negb true) with false. cbv beta iota zeta.
  destruct (upload_blob _ _ _ gw) as [[[]|e] gw']; [|done].
  unfold lift. rewrite quote_filename_chars by apply timestamped_name_chars.
  done.
Qed.

End UploadCases.

(** ** The gallery handler, case by case *)

Section GalleryCases.
Variable app : App.

Lemma gallery_cases gw :
  gallery app gw =
    match list_blobs gw with
    | (Raise e, gw') => (Ok (failure (exn_str e) 500), gw')
    | (Ok names, gw') =>
        match result_map (blob_url app) names with
        | Ok urls => (Ok (listing (sort_reverse urls)), gw')
        | Raise e => (Ok (failure (exn_str e) 500), gw')
        end
    end.
Proof.
  unfold gallery, try_except, mbind, M_bind, bind.
  destruct (list_blobs gw) as [[names|e] gw']; [|done].
  unfold lift. fold (blob_url app).
  by destruct (result_map (blob_url app) names).
Qed.

Lemma list_blobs_names gw names gw' :
  list_blobs gw = (Ok names, gw') →
  gw' = gw ∧ ∀ name, is_Some (blobs gw !! name) → name ∈ names.
Proof.
  unfold list_blobs.
  destruct (faults gw OpListBlobs); [done|].
  destruct (container gw); [|done].
  intros [= <- <-]. split; [done|].
  intros name [b Hb].
  apply list_elem_of_fmap. exists (name, b). split; [done|].
  by apply elem_of_map_to_list.
Qed.

Lemma result_map_elem {A B} (f : A → result B) l ys x :
  result_map f l = Ok ys → x ∈ l → ∃ y, f x = Ok y ∧ y ∈ ys.
Proof.
  revert ys. induction l as [|a l IH]; intros ys Hmap Hx.
  - by apply elem_of_nil in Hx.
  - simpl in Hmap.
    destruct (f a) as [y|] eqn:Hfa; [|done]. simpl in Hmap.
    destruct (result_map f l) as [ys'|] eqn:Hl; [|done].
    injection Hmap as <-.
    apply elem_of_cons in Hx as [->|Hx].
    + exists y. split; [done|]. apply elem_of_cons. by left.
    + destruct (IH ys' eq_refl Hx) as (y' & Hy' & Hin).
      exists y'. split; [done|]. apply elem_of_cons. by right.
Qed.

End GalleryCases.

(** In a list no element of which is smaller than a later one, a strictly
    greater string stands before a smaller one. *)
Lemma descending_precedes (l : list str) a b :
  StronglySorted Str.ge l → a ∈ l → b ∈ l → ¬ Str.ge a b →
  ∃ l1 l2 l3, l = l1 ++ b :: l2 ++ a :: l3.
Proof.
  intros Hs Ha Hb Hlt.
  apply list_elem_of_split in Hb as (l1 & r & ->).
  apply elem_of_app in Ha as [Ha|Ha].
  - destruct Hlt. eapply (StronglySorted_app_1_elem_of _ l1 (b :: r)); [done..|].
    apply elem_of_cons. by left.
  - apply elem_of_cons in Ha as [->|Ha].
    + destruct Hlt. unfold Str.ge, Str.le. apply StrOrder.leb_refl.
    + apply list_elem_of_split in Ha as (l2 & l3 & ->). by exists l1, l2, l3.
Qed.

(** ** Start-up, case by case *)

Lemma startup_cases environ gw url conn :
  environ !! py "STORAGE_ACCOUNT_URL" = Some url → url ≠ [] →
  environ !! py "AZURE_STORAGE_CONNECTION_STRING" = Some conn → conn ≠ [] →
  client_error gw conn
    (default (py "lanternfly-images") (environ !! py "IMAGES_CONTAINER")) = None →
  startup environ gw =
    let app :=
      {| container_url :=
           url ++ py "/"
           ++ default (py "lanternfly-images") (environ !! py "IMAGES_CONTAINER") |} in
    match create_container PublicBlob gw with
    | (Ok _, gw') => (Ok app, gw')
    | (Raise e, gw') =>
        if bool_decide (exn_cls e = ResourceExistsError)
        then (Ok app, gw')
        else (Raise e, gw')
    end.
Proof.
  intros Hurl Hu Hconn Hc Hclient. unfold startup. cbv zeta.
  rewrite Hurl, Hconn.
  destruct url as [|u url]; [done|]. destruct conn as [|c conn]; [done|].
  change (negb (truthy (Some (u :: url)) && truthy (Some (c :: conn))))
    with false.
  unfold try_except, mbind, M_bind, bind, except_ResourceExistsError,
    get_container_client.
  cbv beta iota. simpl default at 1. rewrite Hclient.
  destruct (create_container PublicBlob gw) as [[[]|e] gw']; [done|].
  by case_bool_decide.
Qed.

(** ** What the gateway calls leave behind *)

Lemma upload_blob_raise name data ct gw e gw' :
  upload_blob name data ct gw = (Raise e, gw') → gw' = gw.
Proof.
  unfold upload_blob.
  destruct (faults gw OpUploadBlob); [by intros [= _ <-]|].
  destruct (container gw); [done|by intros [= _ <-]].
Qed.

Lemma upload_blob_ok name data ct gw u gw' :
  upload_blob name data ct gw = (Ok u, gw') →
  gw' = put_blob name {| blob_data := data; blob_content_type := ct |} gw.
Proof.
  unfold upload_blob.
  destruct (faults gw OpUploadBlob); [done|].
  destruct (container gw); [by intros [= _ <-]|done].
Qed.

Lemma create_container_raise acc gw e gw' :
  create_container acc gw = (Raise e, gw') → gw' = gw.
Proof.
  unfold create_container.
  destruct (faults gw OpCreateContainer); [by intros [= _ <-]|].
  destruct (container gw); [by intros [= _ <-]|done].
Qed.

Lemma field_ok_failure error code :
  field "ok" (failure error code) = Some (JBool false).
Proof. reflexivity. Qed.

(** ** The upload handler *)

Section Upload.
Variable rt : Runtime.
Variable app : App.

(** The handler always returns a response: no exception leaves it. *)
Lemma upload_never_raises utcnow req gw :
  ∃ resp gw', upload rt app utcnow req gw = (Ok resp, gw').
Proof.
  rewrite upload_cases.
  destruct (MAX_CONTENT_LENGTH <? content_length req); [by eauto|].
  destruct (form_files req !! py "file") as [f|]; [|by eauto].
  case_bool_decide; [by eauto|].
  destruct (negb (is_image f)); [by eauto|].
  cbv zeta.
  destruct (upload_blob _ _ _ gw) as [[u|e] gw1]; by eauto.
Qed.

(** C1. A request within the size limit is validated in order, stopping at
    the first failure: without a field [file] the answer is 400 with
    [ok:false] and the error [Missing file]; with a file whose filename is
    the empty string it is 400 with [ok:false] and [Empty filename];
    otherwise, with a declared content type that does not start with
    [image/], it is 415 with [ok:false].  On each of these paths the gateway
    is left as it was: no object is written. *)
Theorem upload_validation_order utcnow req gw :
  content_length req ≤ MAX_CONTENT_LENGTH →
  (form_files req !! py "file" = None →
     upload rt app utcnow req gw
     = (Ok (failure (py "Missing file") 400), gw))
  ∧ (∀ f, form_files req !! py "file" = Some f →
       filename f = py "" →
       upload rt app utcnow req gw
       = (Ok (failure (py "Empty filename") 400), gw))
  ∧ (∀ f ct, form_files req !! py "file" = Some f →
       filename f ≠ py "" →
       mimetype f = Some ct →
       Str.startswith ct (py "image/") = false →
       upload rt app utcnow req gw
       = (Ok (failure (py "Only image/* allowed") 415), gw)).
Proof.
  intros Hlen. apply N.ltb_ge in Hlen.
  repeat split.
  - intros Hfile. by rewrite upload_cases, Hlen, Hfile.
  - intros f Hfile Hname. rewrite upload_cases, Hlen, Hfile.
    by rewrite bool_decide_eq_true_2.
  - intros f ct Hfile Hname Hct Himg. rewrite upload_cases, Hlen, Hfile.
    rewrite bool_decide_eq_false_2 by done.
    unfold is_image. rewrite Hct. simpl default. by rewrite Himg.
Qed.

(** C3. A request whose body is longer than 10 MiB is not turned away
    before the handler: the handler runs, reading [request.files] raises
    werkzeug's 413 exception inside the handler's [try], the handler's own
    [except Exception] catches it, and the answer is 500 with the text of
    that exception.  Nothing is written to the gateway. *)
Theorem upload_over_limit utcnow req gw :
  MAX_CONTENT_LENGTH < content_length req →
  MAX_CONTENT_LENGTH = 10 * 1024 * 1024
  ∧ upload rt app utcnow req gw = (Ok (failure (exn_str too_large) 500), gw).
Proof.
  intros Hlen. apply N.ltb_lt in Hlen. split; [done|].
  by rewrite upload_cases, Hlen.
Qed.

(** C5. When the request passes validation and the gateway's write raises,
    the handler returns 500 with [ok:false] and the exception's message as
    the error; the exception does not leave the handler, and the store is
    as it was. *)
Theorem upload_gateway_failure utcnow req gw f e gw1 :
  content_length req ≤ MAX_CONTENT_LENGTH →
  form_files req !! py "file" = Some f →
  filename f ≠ py "" →
  is_image f = true →
  upload_blob (timestamped_name rt utcnow (filename f)) (stream f)
    (mimetype f) gw = (Raise e, gw1) →
  upload rt app utcnow req gw = (Ok (failure (exn_str e) 500), gw1)
  ∧ field "error" (failure (exn_str e) 500) = Some (JStr (exn_str e))
  ∧ blobs gw1 = blobs gw.
Proof.
  intros Hlen Hfile Hname Himg Hw. apply N.ltb_ge in Hlen.
  split; [|split; [done|]].
  - rewrite upload_cases, Hlen, Hfile.
    rewrite bool_decide_eq_false_2 by done.
    rewrite Himg. simpl negb. cbv iota zeta. by rewrite Hw.
  - by rewrite (upload_blob_raise _ _ _ _ _ _ Hw).
Qed.

(** C8. The URL of a successful upload is the container's base URL, a
    slash, and the percent-encoded object name; the object name is the
    naming function's [<timestamp>-<sanitized>], which percent-encoding
    leaves unchanged, so the URL ends with the timestamp, a hyphen and the
    sanitized filename.  The object is stored under that name. *)
Theorem upload_success_url utcnow req gw resp gw' :
  upload rt app utcnow req gw = (Ok resp, gw') →
  field "ok" resp = Some (JBool true) →
  ∃ f quoted,
    form_files req !! py "file" = Some f
    ∧ quote (timestamped_name rt utcnow (filename f)) = Ok quoted
    ∧ field "url" resp = Some (JStr (container_url app ++ py "/" ++ quoted))
    ∧ quoted = strftime utcnow ++ py "-" ++ secure_filename rt (filename f)
    ∧ blobs gw' !! timestamped_name rt utcnow (filename f)
      = Some {| blob_data := stream f; blob_content_type := mimetype f |}.
Proof.
  rewrite upload_cases.
  destruct (MAX_CONTENT_LENGTH <? content_length req);
    [by intros [= <- <-]|].
  destruct (form_files req !! py "file") as [f|]; [|by intros [= <- <-]].
  case_bool_decide; [by intros [= <- <-]|].
  destruct (is_image f); simpl negb; cbv iota zeta; [|by intros [= <- <-]].
  destruct (upload_blob _ _ _ gw) as [[u|e] gw1] eqn:Hw;
    [|by intros [= <- <-]].
  intros [= <- <-] _.
  exists f, (timestamped_name rt utcnow (filename f)).
  split_and!; try done.
  - apply quote_filename_chars, timestamped_name_chars.
  - rewrite (upload_blob_ok _ _ _ _ _ _ Hw). simpl. apply lookup_insert_eq.
Qed.

(** C10. A file part without a declared content type is handled as one
    whose content type is the empty string: [is_image] returns [False]
    instead of raising, and the handler, having got as far as the
    content-type check, returns 415 with [ok:false] and writes nothing, as
    it does for a content type that is not an image type. *)
Theorem upload_without_mimetype utcnow req gw f :
  content_length req ≤ MAX_CONTENT_LENGTH →
  form_files req !! py "file" = Some f →
  filename f ≠ py "" →
  mimetype f = None →
  is_image f
  = is_image {| filename := filename f; mimetype := Some (py ""); stream := stream f |}
  ∧ is_image f = false
  ∧ upload rt app utcnow req gw
    = (Ok (failure (py "Only image/* allowed") 415), gw).
Proof.
  intros Hlen Hfile Hname Hmime. apply N.ltb_ge in Hlen.
  assert (is_image f = false) as Himg by (unfold is_image; by rewrite Hmime).
  split_and!; [by rewrite Himg|done|].
  rewrite upload_cases, Hlen, Hfile.
  rewrite bool_decide_eq_false_2 by done.
  by rewrite Himg.
Qed.

End Upload.

(** ** The gallery handler *)

Section Gallery.
Variable app : App.

Lemma gallery_never_raises gw :
  ∃ resp gw', gallery app gw = (Ok resp, gw').
Proof.
  rewrite gallery_cases.
  destruct (list_blobs gw) as [[names|e] gw1]; [|by eauto].
  destruct (result_map (blob_url app) names); by eauto.
Qed.

(** C4. The URLs of a successful gallery response stand in descending
    lexicographic order; when the container holds objects named
    [20240101T000000-a.jpg] and [20240102T000000-b.jpg], the URL of the
    second comes before the URL of the first. *)
Theorem gallery_descending gw resp gw' :
  gallery app gw = (Ok resp, gw') →
  field "ok" resp = Some (JBool true) →
  ∃ urls,
    field "gallery" resp = Some (JList urls)
    ∧ StronglySorted Str.ge urls
    ∧ (is_Some (blobs gw !! py "20240101T000000-a.jpg") →
       is_Some (blobs gw !! py "20240102T000000-b.jpg") →
       ∃ l1 l2 l3,
         urls = l1 ++ (container_url app ++ py "/20240102T000000-b.jpg")
                   :: l2 ++ (container_url app ++ py "/20240101T000000-a.jpg")
                   :: l3).
Proof.
  rewrite gallery_cases.
  destruct (list_blobs gw) as [[names|e] gw1] eqn:Hlist;
    [|by intros [= <- <-]].
  destruct (result_map (blob_url app) names) as [urls|e] eqn:Hmap;
    [|by intros [= <- <-]].
  intros [= <- <-] _.
  exists (sort_reverse urls). split; [done|].
  assert (StronglySorted Str.ge (sort_reverse urls)) as Hsorted
    by apply (StronglySorted_merge_sort _).
  split; [done|].
  intros Ha Hb.
  apply list_blobs_names in Hlist as [_ Hnames].
  apply Hnames in Ha, Hb.
  destruct (result_map_elem _ _ _ _ Hmap Ha) as (ua & Hua & Hina).
  destruct (result_map_elem _ _ _ _ Hmap Hb) as (ub & Hub & Hinb).
  injection Hua as <-. injection Hub as <-.
  apply descending_precedes; [done| | |].
  - unfold sort_reverse. by rewrite merge_sort_Permutation.
  - unfold sort_reverse. by rewrite merge_sort_Permutation.
  - unfold Str.ge, Str.le. rewrite StrOrder.leb_app. by vm_compute.
Qed.

(** C6 (as the code has it). When the gateway's listing raises, the
    handler returns 500 with [ok:false] and the exception's own message as
    the error; the exception does not leave the handler. *)
Theorem gallery_gateway_failure gw e gw1 :
  list_blobs gw = (Raise e, gw1) →
  gallery app gw = (Ok (failure (exn_str e) 500), gw1)
  ∧ field "ok" (failure (exn_str e) 500) = Some (JBool false)
  ∧ field "error" (failure (exn_str e) 500) = Some (JStr (exn_str e)).
Proof.
  intros Hlist. split; [|done].
  by rewrite gallery_cases, Hlist.
Qed.

End Gallery.

(** ** The naming function *)

Section Naming_properties.
Variable rt : Runtime.

(** C2 (as the code has it). The name is the timestamp, a hyphen and the
    sanitized filename.  The sanitized part holds only ASCII letters,
    digits, [_], [.] and [-], hence no path separator, no control
    character and nothing that percent-encoding would change.  No fallback
    token stands in for an empty sanitized part; the name as a whole is
    never empty. *)
Theorem timestamped_name_shape utcnow fn :
  timestamped_name rt utcnow fn
  = strftime utcnow ++ py "-" ++ secure_filename rt fn
  ∧ length (strftime utcnow) = 15%nat
  ∧ Forall (λ c, filename_char c = true
                 ∧ is_path_separator c = false
                 ∧ is_control c = false)
      (secure_filename rt fn)
  ∧ quote (secure_filename rt fn) = Ok (secure_filename rt fn)
  ∧ timestamped_name rt utcnow fn ≠ [].
Proof.
  split_and!; try done.
  - eapply Forall_impl; [apply secure_filename_chars|].
    intros c Hc. split; [done|]. by apply filename_char_clean.
  - apply quote_filename_chars, secure_filename_chars.
Qed.

(** C7. For a filename that holds a path separator ([/] or [\]) or a
    control character, the generated object name holds neither. *)
Theorem timestamped_name_clean utcnow fn :
  Exists (λ c, is_path_separator c = true ∨ is_control c = true) fn →
  Forall (λ c, is_path_separator c = false ∧ is_control c = false)
    (timestamped_name rt utcnow fn).
Proof.
  intros _.
  eapply Forall_impl; [apply timestamped_name_chars|].
  intros c Hc. by apply filename_char_clean.
Qed.

End Naming_properties.

(** ** Start-up *)

(** C9 (as the code has it). With the two required settings present and
    accepted by the SDK, start-up asks the gateway to create the container with public read
    access to its blobs.  When the call succeeds the container exists with
    that access.  When it fails because the container exists, start-up goes
    on as after a success, and the container is left as it was, access
    level included. *)
Theorem startup_container environ gw url conn :
  environ !! py "STORAGE_ACCOUNT_URL" = Some url → url ≠ [] →
  environ !! py "AZURE_STORAGE_CONNECTION_STRING" = Some conn → conn ≠ [] →
  client_error gw conn
    (default (py "lanternfly-images") (environ !! py "IMAGES_CONTAINER")) = None →
  let app :=
    {| container_url :=
         url ++ py "/"
         ++ default (py "lanternfly-images") (environ !! py "IMAGES_CONTAINER") |} in
  (∀ u gw', create_container PublicBlob gw = (Ok u, gw') →
     startup environ gw = (Ok app, gw') ∧ container gw' = Some PublicBlob)
  ∧ (∀ e gw', create_container PublicBlob gw = (Raise e, gw') →
       exn_cls e = ResourceExistsError →
       startup environ gw = (Ok app, gw') ∧ container gw' = container gw)
  ∧ (∀ acc, faults gw OpCreateContainer = None → container gw = Some acc →
       startup environ gw = (Ok app, gw)).
Proof.
  intros Hurl Hu Hconn Hc Hclient app.
  pose proof (startup_cases environ gw url conn Hurl Hu Hconn Hc Hclient) as Hs.
  cbv zeta in Hs. fold app in Hs.
  split_and!.
  - intros u gw' Hcreate. rewrite Hs, Hcreate. split; [done|].
    unfold create_container in Hcreate.
    destruct (faults gw OpCreateContainer); [done|].
    destruct (container gw); [done|]. by injection Hcreate as _ <-.
  - intros e gw' Hcreate Hcls. rewrite Hs, Hcreate.
    rewrite bool_decide_eq_true_2 by done. split; [done|].
    by rewrite (create_container_raise _ _ _ _ Hcreate).
  - intros acc Hf Hacc. rewrite Hs. unfold create_container.
    by rewrite Hf, Hacc.
Qed.

(** * The statements on the sample deployment *)

Lemma upload_validation_order_sample :
  upload Sample.runtime Sample.app Sample.clock Sample.request_without_file
    Sample.gateway
  = (Ok (failure (py "Missing file") 400), Sample.gateway)
  ∧ upload Sample.runtime Sample.app Sample.clock
      (Sample.request_with 120 (Sample.photo (py "") (Some (py "image/png"))))
      Sample.gateway
    = (Ok (failure (py "Empty filename") 400), Sample.gateway)
  ∧ upload Sample.runtime Sample.app Sample.clock
      (Sample.request_with 120
         (Sample.photo (py "notes.txt") (Some (py "text/plain"))))
      Sample.gateway
    = (Ok (failure (py "Only image/* allowed") 415), Sample.gateway).
Proof.
  split_and!.
  - refine (proj1 (upload_validation_order Sample.runtime Sample.app
                     Sample.clock Sample.request_without_file Sample.gateway _) _);
      by vm_compute.
  - refine (proj1 (proj2 (upload_validation_order Sample.runtime Sample.app
                     Sample.clock _ Sample.gateway _)) _ _ _);
      by vm_compute.
  - refine (proj2 (proj2 (upload_validation_order Sample.runtime Sample.app
                     Sample.clock _ Sample.gateway _)) _ (py "text/plain") _ _ _ _);
      by vm_compute.
Defined.

Lemma upload_over_limit_sample :
  MAX_CONTENT_LENGTH = 10 * 1024 * 1024
  ∧ upload Sample.runtime Sample.app Sample.clock
      (Sample.request_with 10485761 Sample.cat) Sample.gateway
    = (Ok (failure (exn_str too_large) 500), Sample.gateway).
Proof.
  apply upload_over_limit. by vm_compute.
Defined.

Lemma upload_gateway_failure_sample :
  upload Sample.runtime Sample.app Sample.clock
    (Sample.request_with 120 Sample.cat) Sample.failing_gateway
  = (Ok (failure (exn_str Sample.connection_reset) 500), Sample.failing_gateway)
  ∧ field "error" (failure (exn_str Sample.connection_reset) 500)
    = Some (JStr (exn_str Sample.connection_reset))
  ∧ blobs Sample.failing_gateway = blobs Sample.failing_gateway.
Proof.
  apply (upload_gateway_failure Sample.runtime Sample.app Sample.clock
           (Sample.request_with 120 Sample.cat) Sample.failing_gateway
           Sample.cat); by vm_compute.
Defined.

Lemma upload_success_url_sample :
  ∃ f quoted,
    form_files (Sample.request_with 120 Sample.cat) !! py "file" = Some f
    ∧ quote (timestamped_name Sample.runtime Sample.clock (filename f))
      = Ok quoted
    ∧ field "url"
        (uploaded
           (py "https://acct.blob.core.windows.net/lanternfly-images/20240103T123045-my_cat.png"))
      = Some (JStr (container_url Sample.app ++ py "/" ++ quoted))
    ∧ quoted
      = strftime Sample.clock ++ py "-"
        ++ secure_filename Sample.runtime (filename f)
    ∧ blobs Sample.stored_gateway
        !! timestamped_name Sample.runtime Sample.clock (filename f)
      = Some {| blob_data := stream f; blob_content_type := mimetype f |}.
Proof.
  apply (upload_success_url Sample.runtime Sample.app Sample.clock
           (Sample.request_with 120 Sample.cat) Sample.gateway);
    by vm_compute.
Defined.

Lemma upload_without_mimetype_sample :
  is_image (Sample.photo (py "cat.png") None)
  = is_image {| filename := py "cat.png"; mimetype := Some (py "");
                stream := stream (Sample.photo (py "cat.png") None) |}
  ∧ is_image (Sample.photo (py "cat.png") None) = false
  ∧ upload Sample.runtime Sample.app Sample.clock
      (Sample.request_with 120 (Sample.photo (py "cat.png") None))
      Sample.gateway
    = (Ok (failure (py "Only image/* allowed") 415), Sample.gateway).
Proof.
  apply (upload_without_mimetype Sample.runtime Sample.app Sample.clock
           (Sample.request_with 120 (Sample.photo (py "cat.png") None))
           Sample.gateway (Sample.photo (py "cat.png") None));
    by vm_compute.
Defined.

Lemma gallery_descending_sample :
  ∃ urls,
    field "gallery"
      (listing
         [py "https://acct.blob.core.windows.net/lanternfly-images/old%20photo.png";
          py "https://acct.blob.core.windows.net/lanternfly-images/20240102T000000-b.jpg";
          py "https://acct.blob.core.windows.net/lanternfly-images/20240101T000000-a.jpg"])
    = Some (JList urls)
    ∧ StronglySorted Str.ge urls
    ∧ (is_Some (blobs Sample.gateway !! py "20240101T000000-a.jpg") →
       is_Some (blobs Sample.gateway !! py "20240102T000000-b.jpg") →
       ∃ l1 l2 l3,
         urls = l1 ++ (container_url Sample.app ++ py "/20240102T000000-b.jpg")
                   :: l2 ++ (container_url Sample.app ++ py "/20240101T000000-a.jpg")
                   :: l3).
Proof.
  apply (gallery_descending Sample.app Sample.gateway _ Sample.gateway);
    by vm_compute.
Defined.

Lemma gallery_gateway_failure_sample :
  gallery Sample.app Sample.failing_gateway
  = (Ok (failure (exn_str Sample.connection_reset) 500), Sample.failing_gateway)
  ∧ field "ok" (failure (exn_str Sample.connection_reset) 500)
    = Some (JBool false)
  ∧ field "error" (failure (exn_str Sample.connection_reset) 500)
    = Some (JStr (exn_str Sample.connection_reset)).
Proof.
  apply gallery_gateway_failure. by vm_compute.
Defined.

(** The error of a failed listing is the gateway's message, word for word,
    and differs from one failure to the next. *)
Lemma gallery_error_is_gateway_message :
  list_blobs Sample.failing_gateway
  = (Raise Sample.connection_reset, Sample.failing_gateway)
  ∧ exn_str Sample.connection_reset = py "Connection reset by peer"
  ∧ fst (gallery Sample.app Sample.failing_gateway)
    = Ok (failure (py "Connection reset by peer") 500)
  ∧ fst (gallery Sample.app
           Sample.fresh_gateway)
    = Ok (failure (py "The specified container does not exist.") 500).
Proof. by vm_compute. Qed.

Lemma timestamped_name_clean_sample :
  Forall (λ c, is_path_separator c = false ∧ is_control c = false)
    (timestamped_name Sample.runtime Sample.clock Sample.hostile_filename).
Proof.
  apply timestamped_name_clean.
  apply Exists_cons_hd. left. reflexivity.
Defined.

(** A filename that is not empty and sanitizes to the empty string: the
    name ends with the hyphen, on every platform and at every time. *)
Lemma timestamped_name_nothing_after_timestamp :
  secure_filename Sample.runtime (py "/") = []
  ∧ timestamped_name Sample.runtime Sample.clock (py "/")
    = py "20240103T123045-"
  ∧ (∀ rt utcnow,
       timestamped_name rt utcnow (py "/") = strftime utcnow ++ py "-").
Proof.
  split_and!; [by vm_compute..|].
  intros [[] decomp ccc devices] utcnow; unfold timestamped_name; cbv zeta;
    by f_equal.
Qed.

Lemma startup_container_sample :
  (startup Sample.environ Sample.fresh_gateway
   = (Ok Sample.app, set_container PublicBlob Sample.fresh_gateway)
   ∧ container (set_container PublicBlob Sample.fresh_gateway) = Some PublicBlob)
  ∧ startup Sample.environ Sample.private_gateway
    = (Ok Sample.app, Sample.private_gateway).
Proof.
  split.
  - refine (proj1 (startup_container Sample.environ Sample.fresh_gateway
                     (py "https://acct.blob.core.windows.net")
                     (py "UseDevelopmentStorage=true") _ _ _ _ _) tt _ _);
      by vm_compute.
  - refine (proj2 (proj2 (startup_container Sample.environ Sample.private_gateway
                     (py "https://acct.blob.core.windows.net")
                     (py "UseDevelopmentStorage=true") _ _ _ _ _)) Private _ _);
      by vm_compute.
Defined.

(** A container that exists without public access is still without it
    after start-up, and start-up reports no error. *)
Lemma startup_keeps_private_container :
  startup Sample.environ Sample.private_gateway
  = (Ok Sample.app, Sample.private_gateway)
  ∧ container Sample.private_gateway = Some Private
  ∧ create_container PublicBlob Sample.private_gateway
    = (Raise (Exn ResourceExistsError
                (py "The specified container already exists.")),
       Sample.private_gateway).
Proof. by vm_compute. Qed.


(** * Further properties of the module *)

(** ** Start-up *)

Definition missing_settings : exn :=
  Exn RuntimeError
    (py "Missing required environment vars: STORAGE_ACCOUNT_URL or AZURE_STORAGE_CONNECTION_STRING").

(** X1. When [STORAGE_ACCOUNT_URL] or [AZURE_STORAGE_CONNECTION_STRING] is
    unset or empty, the module raises [RuntimeError] before it builds a
    client: the gateway is not called. *)
Theorem startup_requires_settings environ gw :
  truthy (environ !! py "STORAGE_ACCOUNT_URL") = false
  ∨ truthy (environ !! py "AZURE_STORAGE_CONNECTION_STRING") = false →
  startup environ gw = (Raise missing_settings, gw).
Proof.
  intros Hmissing. unfold startup. cbv zeta.
  assert (truthy (environ !! py "STORAGE_ACCOUNT_URL")
          && truthy (environ !! py "AZURE_STORAGE_CONNECTION_STRING") = false)
    as -> by (destruct Hmissing as [-> | ->]; [done|apply andb_false_r]).
  done.
Qed.

(** X2. Only [ResourceExistsError] is passed over at start-up: any other
    exception of the container creation leaves the module, with the gateway
    as the failed call left it. *)
Theorem startup_other_error_propagates environ gw url conn e gw' :
  environ !! py "STORAGE_ACCOUNT_URL" = Some url → url ≠ [] →
  environ !! py "AZURE_STORAGE_CONNECTION_STRING" = Some conn → conn ≠ [] →
  client_error gw conn
    (default (py "lanternfly-images") (environ !! py "IMAGES_CONTAINER")) = None →
  create_container PublicBlob gw = (Raise e, gw') →
  exn_cls e ≠ ResourceExistsError →
  startup environ gw = (Raise e, gw) ∧ gw' = gw.
Proof.
  intros Hurl Hu Hconn Hc Hclient Hcreate Hcls.
  rewrite (startup_cases environ gw url conn) by done. cbv zeta.
  rewrite Hcreate. rewrite bool_decide_eq_false_2 by done.
  by rewrite (create_container_raise _ _ _ _ Hcreate).
Qed.

Lemma startup_ok_inv environ gw app gw' :
  startup environ gw = (Ok app, gw') →
  ∃ url conn,
    environ !! py "STORAGE_ACCOUNT_URL" = Some url ∧ url ≠ []
    ∧ environ !! py "AZURE_STORAGE_CONNECTION_STRING" = Some conn ∧ conn ≠ []
    ∧ client_error gw conn
        (default (py "lanternfly-images") (environ !! py "IMAGES_CONTAINER"))
      = None.
Proof.
  unfold startup. cbv zeta.
  destruct (environ !! py "STORAGE_ACCOUNT_URL") as [[|u url]|]; try done.
  destruct (environ !! py "AZURE_STORAGE_CONNECTION_STRING")
    as [[|c conn]|]; try done.
  change (negb (truthy (Some (u :: url)) && truthy (Some (c :: conn))))
    with false.
  unfold mbind, M_bind, bind, get_container_client. cbv beta iota.
  simpl default at 1.
  destruct (client_error gw (c :: conn) _) eqn:Hclient; [done|].
  intros _. by exists (u :: url), (c :: conn).
Qed.

(** X3. Start-up can be repeated: after a start-up that succeeded, a second
    one on the gateway it left succeeds with the same application object
    and changes nothing. *)
Theorem startup_repeatable environ gw app gw1 :
  startup environ gw = (Ok app, gw1) →
  startup environ gw1 = (Ok app, gw1).
Proof.
  intros Hstart.
  destruct (startup_ok_inv _ _ _ _ Hstart)
    as (url & conn & Hurl & Hu & Hconn & Hc & Hclient).
  rewrite (startup_cases environ gw url conn) in Hstart by done.
  cbv zeta in Hstart.
  unfold create_container in Hstart.
  destruct (faults gw OpCreateContainer) as [e|] eqn:Hfault.
  - case_bool_decide; [|done]. injection Hstart as <- <-.
    rewrite (startup_cases environ gw url conn) by done. cbv zeta.
    unfold create_container. rewrite Hfault.
    by rewrite bool_decide_eq_true_2.
  - destruct (container gw) as [acc|] eqn:Hcont.
    + simpl in Hstart. injection Hstart as <- <-.
      rewrite (startup_cases environ gw url conn) by done. cbv zeta.
      unfold create_container. by rewrite Hfault, Hcont.
    + injection Hstart as <- <-.
      rewrite (startup_cases environ (set_container PublicBlob gw) url conn)
        by done.
      cbv zeta. unfold create_container. simpl. by rewrite Hfault.
Qed.


(** ** The content-type check *)

Lemma startswith_iff s prefix :
  Str.startswith s prefix = true ↔ ∃ rest, s = prefix ++ rest.
Proof.
  revert s. induction prefix as [|p prefix IH]; intros s.
  - split; [by exists s|]. by destruct s.
  - destruct s as [|c s]; simpl.
    + split; [done|]. by intros [rest ?].
    + rewrite andb_true_iff, N.eqb_eq, IH. split.
      * intros [-> [rest ->]]. by exists rest.
      * intros [rest [= -> ->]]. split; [done|by exists rest].
Qed.

(** X5. [is_image] accepts a file exactly when its declared content type
    is the text [image/] followed by anything, the empty subtype included;
    a missing content type is refused. *)
Theorem is_image_iff file :
  is_image file = true ↔ ∃ rest, mimetype file = Some (py "image/" ++ rest).
Proof.
  unfold is_image. rewrite startswith_iff.
  destruct (mimetype file) as [ct|]; simpl.
  - split; intros [rest Hrest]; exists rest; congruence.
  - split; intros [rest Hrest]; done.
Qed.

(** ** The upload handler, beyond the claims *)

Section Upload_more.
Variable rt : Runtime.
Variable app : App.

Lemma upload_ok_inv utcnow req gw resp gw' :
  upload rt app utcnow req gw = (Ok resp, gw') →
  field "ok" resp = Some (JBool true) →
  content_length req ≤ MAX_CONTENT_LENGTH
  ∧ ∃ f,
      form_files req !! py "file" = Some f
      ∧ filename f ≠ py ""
      ∧ is_image f = true
      ∧ upload_blob (timestamped_name rt utcnow (filename f)) (stream f)
          (mimetype f) gw = (Ok tt, gw')
      ∧ resp = uploaded (container_url app ++ py "/"
                         ++ timestamped_name rt utcnow (filename f)).
Proof.
  rewrite upload_cases.
  destruct (MAX_CONTENT_LENGTH <? content_length req) eqn:Hlen;
    [by intros [= <- <-]|].
  apply N.ltb_ge in Hlen.
  destruct (form_files req !! py "file") as [f|]; [|by intros [= <- <-]].
  case_bool_decide; [by intros [= <- <-]|].
  destruct (is_image f) eqn:Himg; simpl negb; cbv iota zeta;
    [|by intros [= <- <-]].
  destruct (upload_blob _ _ _ gw) as [[[]|e] gw1] eqn:Hw;
    [|by intros [= <- <-]].
  intros [= <- <-] _. split; [done|]. by exists f.
Qed.

Lemma upload_ok_intro utcnow req gw f gw' :
  content_length req ≤ MAX_CONTENT_LENGTH →
  form_files req !! py "file" = Some f →
  filename f ≠ py "" →
  is_image f = true →
  upload_blob (timestamped_name rt utcnow (filename f)) (stream f)
    (mimetype f) gw = (Ok tt, gw') →
  upload rt app utcnow req gw
  = (Ok (uploaded (container_url app ++ py "/"
                   ++ timestamped_name rt utcnow (filename f))), gw').
Proof.
  intros Hlen Hfile Hname Himg Hw. apply N.ltb_ge in Hlen.
  rewrite upload_cases, Hlen, Hfile.
  rewrite bool_decide_eq_false_2 by done.
  rewrite Himg. simpl negb. cbv iota zeta. by rewrite Hw.
Qed.

(** X6. An upload is answered with [ok:true] exactly when the body is
    within the limit, the field [file] is present with a filename that is
    not empty and a content type accepted by [is_image], and the gateway's
    write returns.  Neither the filename's extension nor the bytes of the
    file are looked at. *)
Theorem upload_succeeds_iff utcnow req gw :
  (∃ resp gw', upload rt app utcnow req gw = (Ok resp, gw')
               ∧ field "ok" resp = Some (JBool true))
  ↔ (content_length req ≤ MAX_CONTENT_LENGTH
     ∧ ∃ f gw',
         form_files req !! py "file" = Some f
         ∧ filename f ≠ py ""
         ∧ is_image f = true
         ∧ upload_blob (timestamped_name rt utcnow (filename f)) (stream f)
             (mimetype f) gw = (Ok tt, gw')).
Proof.
  split.
  - intros (resp & gw' & Hup & Hok).
    destruct (upload_ok_inv _ _ _ _ _ Hup Hok)
      as (Hlen & f & Hfile & Hname & Himg & Hw & _).
    split; [done|]. by exists f, gw'.
  - intros (Hlen & f & gw' & Hfile & Hname & Himg & Hw).
    eexists _, gw'. split; [by eapply upload_ok_intro|done].
Qed.

(** X7. A successful upload writes one object: the gateway afterwards is
    the one before with the file stored under the generated name, in place
    of whatever was stored under that name; every other object and the
    container's access level are as they were. *)
Theorem upload_writes_one_object utcnow req gw resp gw' :
  upload rt app utcnow req gw = (Ok resp, gw') →
  field "ok" resp = Some (JBool true) →
  ∃ f,
    form_files req !! py "file" = Some f
    ∧ gw' = put_blob (timestamped_name rt utcnow (filename f))
              {| blob_data := stream f; blob_content_type := mimetype f |} gw
    ∧ container gw' = container gw
    ∧ (∀ other, other ≠ timestamped_name rt utcnow (filename f) →
         blobs gw' !! other = blobs gw !! other).
Proof.
  intros Hup Hok.
  destruct (upload_ok_inv _ _ _ _ _ Hup Hok)
    as (_ & f & Hfile & _ & _ & Hw & _).
  apply upload_blob_ok in Hw as ->.
  exists f. split_and!; try done.
  intros other Hother. simpl. by rewrite lookup_insert_ne.
Qed.

(** X8. An upload answered with [ok:false] has written nothing: the
    gateway is as it was, whatever the reason of the refusal. *)
Theorem upload_failure_writes_nothing utcnow req gw resp gw' :
  upload rt app utcnow req gw = (Ok resp, gw') →
  field "ok" resp = Some (JBool false) →
  gw' = gw.
Proof.
  rewrite upload_cases.
  destruct (MAX_CONTENT_LENGTH <? content_length req);
    [by intros [= <- <-]|].
  destruct (form_files req !! py "file") as [f|]; [|by intros [= <- <-]].
  case_bool_decide; [by intros [= <- <-]|].
  destruct (is_image f); simpl negb; cbv iota zeta; [|by intros [= <- <-]].
  destruct (upload_blob _ _ _ gw) as [[[]|e] gw1] eqn:Hw.
  - by intros [= <- <-].
  - intros [= <- <-] _. by apply upload_blob_raise in Hw.
Qed.

(** X9. Two uploads in the same second whose filenames sanitize to the same
    text get the same URL, and the second replaces the first: the gateway
    ends as if only the second had been uploaded. *)
Theorem upload_same_second_overwrites utcnow req1 req2 f1 f2 gw r1 gw1 r2 gw2 :
  form_files req1 !! py "file" = Some f1 →
  form_files req2 !! py "file" = Some f2 →
  secure_filename rt (filename f1) = secure_filename rt (filename f2) →
  upload rt app utcnow req1 gw = (Ok r1, gw1) →
  field "ok" r1 = Some (JBool true) →
  upload rt app utcnow req2 gw1 = (Ok r2, gw2) →
  field "ok" r2 = Some (JBool true) →
  field "url" r1 = field "url" r2
  ∧ upload rt app utcnow req2 gw = (Ok r2, gw2)
  ∧ blobs gw2 !! timestamped_name rt utcnow (filename f1)
    = Some {| blob_data := stream f2; blob_content_type := mimetype f2 |}.
Proof.
  intros Hf1 Hf2 Hsame Hup1 Hok1 Hup2 Hok2.
  destruct (upload_ok_inv _ _ _ _ _ Hup1 Hok1)
    as (_ & f & Hfile1 & _ & _ & Hw1 & ->).
  assert (f = f1) as -> by congruence.
  destruct (upload_ok_inv _ _ _ _ _ Hup2 Hok2)
    as (Hlen2 & f & Hfile2 & Hname2 & Himg2 & Hw2 & ->).
  assert (f = f2) as -> by congruence.
  assert (timestamped_name rt utcnow (filename f1)
          = timestamped_name rt utcnow (filename f2)) as Hname
    by (unfold timestamped_name; by rewrite Hsame).
  rewrite Hname in *.
  pose proof (upload_blob_ok _ _ _ _ _ _ Hw1) as ->.
  pose proof (upload_blob_ok _ _ _ _ _ _ Hw2) as ->.
  assert (upload_blob (timestamped_name rt utcnow (filename f2)) (stream f2)
            (mimetype f2) gw
          = (Ok tt,
             put_blob (timestamped_name rt utcnow (filename f2))
               {| blob_data := stream f2; blob_content_type := mimetype f2 |}
               (put_blob (timestamped_name rt utcnow (filename f2))
                  {| blob_data := stream f1; blob_content_type := mimetype f1 |}
                  gw))) as Hw.
  { unfold upload_blob in Hw1 |- *.
    destruct (faults gw OpUploadBlob); [done|].
    destruct (container gw); [|done].
    unfold put_blob. simpl. by rewrite insert_insert_eq. }
  split_and!.
  - done.
  - by apply upload_ok_intro.
  - simpl. apply lookup_insert_eq.
Qed.

(** X10. Every answer of the upload handler is an envelope of one of two
    shapes: status 200 with [ok:true] and a URL, or status 400, 415 or 500
    with [ok:false] and an error text.  No exception leaves the handler. *)
Theorem upload_envelope utcnow req gw :
  ∃ resp gw',
    upload rt app utcnow req gw = (Ok resp, gw')
    ∧ ((∃ url, resp = uploaded url)
       ∨ (∃ error code, resp = failure error code
                        ∧ (code = 400 ∨ code = 415 ∨ code = 500))).
Proof.
  rewrite upload_cases.
  destruct (MAX_CONTENT_LENGTH <? content_length req);
    [by eauto 10|].
  destruct (form_files req !! py "file") as [f|]; [|by eauto 10].
  case_bool_decide; [by eauto 10|].
  destruct (negb (is_image f)); [by eauto 10|].
  cbv zeta.
  destruct (upload_blob _ _ _ gw) as [[u|e] gw1]; by eauto 10.
Qed.

End Upload_more.

(** ** The gallery handler, beyond the claims *)

Lemma result_map_length {A B} (f : A → result B) l ys :
  result_map f l = Ok ys → length ys = length l.
Proof.
  revert ys. induction l as [|a l IH]; intros ys; simpl.
  - by intros [= <-].
  - destruct (f a); [|done]. simpl.
    destruct (result_map f l) as [ys'|]; [|done]. simpl.
    intros [= <-]. simpl. by rewrite (IH ys').
Qed.

Lemma result_map_elem_inv {A B} (f : A → result B) l ys y :
  result_map f l = Ok ys → y ∈ ys → ∃ x, x ∈ l ∧ f x = Ok y.
Proof.
  revert ys. induction l as [|a l IH]; intros ys; simpl.
  - intros [= <-] Hy. by apply elem_of_nil in Hy.
  - destruct (f a) as [b|] eqn:Hfa; [|done]. simpl.
    destruct (result_map f l) as [ys'|]; [|done]. simpl.
    intros [= <-] Hy. apply elem_of_cons in Hy as [->|Hy].
    + exists a. split; [apply elem_of_cons; by left|done].
    + destruct (IH ys' eq_refl Hy) as (x & Hx & Hfx).
      exists x. split; [apply elem_of_cons; by right|done].
Qed.


Lemma list_blobs_ok_names gw names gw' :
  list_blobs gw = (Ok names, gw') →
  length names = size (blobs gw)
  ∧ ∀ name, name ∈ names ↔ is_Some (blobs gw !! name).
Proof.
  unfold list_blobs.
  destruct (faults gw OpListBlobs); [done|].
  destruct (container gw); [|done].
  intros [= <- <-]. split.
  - by rewrite length_fmap, length_map_to_list.
  - intros name. rewrite list_elem_of_fmap. split.
    + intros ([k b] & -> & Hkb). apply elem_of_map_to_list in Hkb. by exists b.
    + intros [b Hb]. exists (name, b). split; [done|].
      by apply elem_of_map_to_list.
Qed.


Section Gallery_more.
Variable app : App.

Lemma gallery_ok_inv gw resp gw' :
  gallery app gw = (Ok resp, gw') →
  field "ok" resp = Some (JBool true) →
  ∃ names urls,
    list_blobs gw = (Ok names, gw')
    ∧ result_map (blob_url app) names = Ok urls
    ∧ resp = listing (sort_reverse urls).
Proof.
  rewrite gallery_cases.
  destruct (list_blobs gw) as [[names|e] gw1]; [|by intros [= <- <-]].
  destruct (result_map (blob_url app) names) as [urls|e] eqn:Hmap;
    [|by intros [= <- <-]].
  intros [= <- <-] _. by exists names, urls.
Qed.

(** X11. The gallery handler only reads: whatever it answers, the gateway
    is as it was, and the answer is either status 200 with [ok:true] and a
    list, or status 500 with [ok:false] and an error text.  No exception
    leaves the handler. *)
Theorem gallery_read_only gw :
  ∃ resp,
    gallery app gw = (Ok resp, gw)
    ∧ ((∃ urls, resp = listing urls) ∨ (∃ error, resp = failure error 500)).
Proof.
  rewrite gallery_cases. unfold list_blobs.
  destruct (faults gw OpListBlobs); [by eauto 10|].
  destruct (container gw); [|by eauto 10].
  destruct (result_map _ _); by eauto 10.
Qed.

(** X12. A successful gallery lists every object of the container, once:
    there are as many URLs as objects, the URL of every stored object is in
    the list, and every URL of the list is that of a stored object. *)
Theorem gallery_lists_every_object gw resp gw' :
  gallery app gw = (Ok resp, gw') →
  field "ok" resp = Some (JBool true) →
  ∃ urls,
    field "gallery" resp = Some (JList urls)
    ∧ length urls = size (blobs gw)
    ∧ (∀ name, is_Some (blobs gw !! name) →
         ∃ url, blob_url app name = Ok url ∧ url ∈ urls)
    ∧ (∀ url, url ∈ urls →
         ∃ name, is_Some (blobs gw !! name) ∧ blob_url app name = Ok url).
Proof.
  intros Hg Hok.
  destruct (gallery_ok_inv _ _ _ Hg Hok) as (names & urls & Hlist & Hmap & ->).
  apply list_blobs_ok_names in Hlist as [Hlen Hnames].
  exists (sort_reverse urls). unfold sort_reverse. split_and!.
  - done.
  - rewrite merge_sort_Permutation.
    by rewrite (result_map_length _ _ _ Hmap).
  - intros name Hname. apply Hnames in Hname.
    destruct (result_map_elem _ _ _ _ Hmap Hname) as (url & Hurl & Hin).
    exists url. split; [done|]. by rewrite merge_sort_Permutation.
  - intros url Hin. rewrite merge_sort_Permutation in Hin.
    destruct (result_map_elem_inv _ _ _ _ Hmap Hin) as (name & Hname & Hurl).
    exists name. split; [by apply Hnames|done].
Qed.


End Gallery_more.

(** ** Upload, then gallery *)

(** X14. An uploaded image is in the gallery: the URL a successful upload
    returns is among the URLs of any successful gallery answered on the
    gateway the upload left. *)
Theorem uploaded_in_gallery rt app utcnow req gw resp gw1 resp2 gw2 :
  upload rt app utcnow req gw = (Ok resp, gw1) →
  field "ok" resp = Some (JBool true) →
  gallery app gw1 = (Ok resp2, gw2) →
  field "ok" resp2 = Some (JBool true) →
  ∃ url urls,
    field "url" resp = Some (JStr url)
    ∧ field "gallery" resp2 = Some (JList urls)
    ∧ url ∈ urls.
Proof.
  intros Hup Hok Hg Hok2.
  destruct (upload_ok_inv _ _ _ _ _ _ _ Hup Hok)
    as (_ & f & _ & _ & _ & Hw & ->).
  destruct (gallery_ok_inv _ _ _ _ Hg Hok2) as (names & urls & Hlist & Hmap & ->).
  apply upload_blob_ok in Hw as ->.
  apply list_blobs_names in Hlist as [_ Hnames].
  set (name := timestamped_name rt utcnow (filename f)) in *.
  assert (name ∈ names) as Hin.
  { apply Hnames. simpl. rewrite lookup_insert_eq. by eexists. }
  destruct (result_map_elem _ _ _ _ Hmap Hin) as (url & Hurl & Hurls).
  unfold blob_url in Hurl.
  rewrite quote_filename_chars in Hurl by apply timestamped_name_chars.
  injection Hurl as <-.
  eexists _, _. split_and!; [done..|].
  unfold sort_reverse. by rewrite merge_sort_Permutation.
Qed.

(** ** Names sort by time *)

Ltac lia_div := zify; Z.to_euclidean_division_equations; lia.

Lemma leb_cons_gt x y s t : y < x → Str.leb (x :: t) (y :: s) = false.
Proof.
  intros Hxy. simpl.
  destruct (N.ltb_spec x y); [lia|].
  by destruct (N.ltb_spec y x); [|lia].
Qed.

Lemma leb_cons_eq x s t : Str.leb (x :: t) (x :: s) = Str.leb t s.
Proof. simpl. by rewrite N.ltb_irrefl. Qed.

Lemma zero_pad2_lt a b s t :
  a < b → b < 100 →
  Str.leb (zero_pad2 b ++ t) (zero_pad2 a ++ s) = false.
Proof.
  intros Hab Hb. unfold zero_pad2, digit. cbn [app].
  assert ((a / 10) mod 10 < (b / 10) mod 10
          ∨ ((a / 10) mod 10 = (b / 10) mod 10 ∧ a mod 10 < b mod 10))
    as [Hlt|[-> Hlt]] by lia_div.
  - apply leb_cons_gt. lia.
  - rewrite leb_cons_eq. apply leb_cons_gt. lia.
Qed.

Lemma zero_pad4_split n :
  zero_pad4 n = zero_pad2 (n / 100) ++ zero_pad2 (n mod 100).
Proof.
  unfold zero_pad4, zero_pad2, digit. cbn [app].
  assert (n / 1000 = n / 100 / 10) as -> by lia_div.
  assert ((n / 10) mod 10 = (n mod 100 / 10) mod 10) as -> by lia_div.
  by assert (n mod 10 = (n mod 100) mod 10) as <- by lia_div.
Qed.

Lemma zero_pad4_lt a b s t :
  a < b → b < 10000 →
  Str.leb (zero_pad4 b ++ t) (zero_pad4 a ++ s) = false.
Proof.
  intros Hab Hb. rewrite !zero_pad4_split, <- !app_assoc.
  assert (a / 100 < b / 100 ∨ (a / 100 = b / 100 ∧ a mod 100 < b mod 100))
    as [Hlt|[-> Hlt]] by lia_div.
  - apply zero_pad2_lt; [done|lia_div].
  - rewrite StrOrder.leb_app. apply zero_pad2_lt; [done|lia_div].
Qed.

Lemma strftime_lt a b s t :
  valid_datetime a → valid_datetime b → earlier a b →
  Str.leb (strftime b ++ t) (strftime a ++ s) = false.
Proof.
  intros (_ & _ & _ & _ & _ & _ & _ & _ & _)
         (_ & Hy & _ & Hm & _ & Hd & Hh & Hmi & Hs) Hearlier.
  unfold strftime. rewrite <- !app_assoc.
  destruct Hearlier as [Hlt|[-> Hearlier]];
    [apply zero_pad4_lt; [done|lia]|rewrite StrOrder.leb_app].
  destruct Hearlier as [Hlt|[-> Hearlier]];
    [apply zero_pad2_lt; [done|lia]|rewrite StrOrder.leb_app].
  destruct Hearlier as [Hlt|[-> Hearlier]];
    [apply zero_pad2_lt; [done|lia]|rewrite StrOrder.leb_app].
  rewrite (StrOrder.leb_app (py "T")).
  destruct Hearlier as [Hlt|[-> Hearlier]];
    [apply zero_pad2_lt; [done|lia]|rewrite StrOrder.leb_app].
  destruct Hearlier as [Hlt|[-> Hlt]];
    [apply zero_pad2_lt; [done|lia]|rewrite StrOrder.leb_app].
  apply zero_pad2_lt; [done|lia].
Qed.

Lemma timestamped_name_lt rt a b fa fb :
  valid_datetime a → valid_datetime b → earlier a b →
  Str.leb (timestamped_name rt b fb) (timestamped_name rt a fa) = false.
Proof. intros Ha Hb Hearlier. unfold timestamped_name. by apply strftime_lt. Qed.

(** X15. Names sort by upload time: for two clock readings, the earlier
    one gives the strictly smaller name in the order of Python strings,
    whatever the two filenames are. *)
Theorem timestamped_name_sortable rt a b fa fb :
  valid_datetime a → valid_datetime b → earlier a b →
  Str.leb (timestamped_name rt a fa) (timestamped_name rt b fb) = true
  ∧ Str.leb (timestamped_name rt b fb) (timestamped_name rt a fa) = false.
Proof.
  intros Ha Hb Hearlier.
  pose proof (timestamped_name_lt rt a b fa fb Ha Hb Hearlier) as Hlt.
  split; [|done].
  destruct (StrOrder.leb_total (timestamped_name rt a fa)
              (timestamped_name rt b fb)); congruence.
Qed.

(** X16. The gallery shows the newer upload first: when the container holds
    a name generated at an earlier clock reading and one generated at a
    later reading, the URL of the later one comes before the URL of the
    earlier one in every successful gallery. *)
Theorem gallery_newest_first rt app a b fa fb gw resp gw' :
  valid_datetime a → valid_datetime b → earlier a b →
  is_Some (blobs gw !! timestamped_name rt a fa) →
  is_Some (blobs gw !! timestamped_name rt b fb) →
  gallery app gw = (Ok resp, gw') →
  field "ok" resp = Some (JBool true) →
  ∃ urls l1 l2 l3,
    field "gallery" resp = Some (JList urls)
    ∧ urls = l1 ++ (container_url app ++ py "/" ++ timestamped_name rt b fb)
                :: l2 ++ (container_url app ++ py "/" ++ timestamped_name rt a fa)
                :: l3.
Proof.
  intros Ha Hb Hearlier Hina Hinb Hg Hok.
  destruct (gallery_ok_inv _ _ _ _ Hg Hok) as (names & urls & Hlist & Hmap & ->).
  apply list_blobs_names in Hlist as [_ Hnames].
  apply Hnames in Hina, Hinb.
  destruct (result_map_elem _ _ _ _ Hmap Hina) as (ua & Hua & Hua_in).
  destruct (result_map_elem _ _ _ _ Hmap Hinb) as (ub & Hub & Hub_in).
  unfold blob_url in Hua, Hub.
  rewrite quote_filename_chars in Hua, Hub by apply timestamped_name_chars.
  injection Hua as <-. injection Hub as <-.
  exists (sort_reverse urls).
  destruct (descending_precedes (sort_reverse urls)
              (container_url app ++ py "/" ++ timestamped_name rt a fa)
              (container_url app ++ py "/" ++ timestamped_name rt b fb))
    as (l1 & l2 & l3 & Hsplit).
  - apply (StronglySorted_merge_sort _).
  - unfold sort_reverse. by rewrite merge_sort_Permutation.
  - unfold sort_reverse. by rewrite merge_sort_Permutation.
  - unfold Str.ge, Str.le. rewrite !StrOrder.leb_app.
    by rewrite (timestamped_name_lt rt a b fa fb Ha Hb Hearlier).
  - by exists l1, l2, l3.
Qed.

(** ** What sanitizing keeps and what it removes *)

Lemma last_rev {A} (l : list A) : last (rev l) = head l.
Proof. destruct l as [|a l]; [done|]. simpl. apply last_snoc. Qed.

Lemma head_rev {A} (l : list A) : head (rev l) = last l.
Proof. by rewrite <- (last_rev (rev l)), rev_involutive. Qed.

Lemma lstrip_split chars s : ∃ p, s = p ++ Str.lstrip chars s.
Proof.
  induction s as [|c s [p IH]]; [by exists []|]. simpl.
  case_bool_decide; [|by exists []].
  exists (c :: p). simpl. by rewrite <- IH.
Qed.

Lemma lstrip_head chars s c :
  head (Str.lstrip chars s) = Some c → c ∉ chars.
Proof.
  induction s as [|a s IH]; simpl; [done|].
  case_bool_decide; [done|]. by intros [= <-].
Qed.

Lemma lstrip_id chars s :
  (∀ c, head s = Some c → c ∉ chars) → Str.lstrip chars s = s.
Proof.
  destruct s as [|c s]; [done|]. intros Hc. simpl.
  by rewrite bool_decide_eq_false_2 by by apply Hc.
Qed.

Lemma rstrip_prefix chars s : ∃ q, s = Str.rstrip chars s ++ q.
Proof.
  unfold Str.rstrip. destruct (lstrip_split chars (rev s)) as [p Hp].
  exists (rev p). rewrite <- rev_app_distr, <- Hp. by rewrite rev_involutive.
Qed.

Lemma rstrip_last chars s c :
  last (Str.rstrip chars s) = Some c → c ∉ chars.
Proof. unfold Str.rstrip. rewrite last_rev. apply lstrip_head. Qed.

Lemma rstrip_id chars s :
  (∀ c, last s = Some c → c ∉ chars) → Str.rstrip chars s = s.
Proof.
  intros Hc. unfold Str.rstrip. rewrite lstrip_id; [apply rev_involutive|].
  intros c. rewrite head_rev. apply Hc.
Qed.

Lemma strip_head chars s c :
  head (Str.strip chars s) = Some c → c ∉ chars.
Proof.
  unfold Str.strip. intros Hhead.
  destruct (rstrip_prefix chars (Str.lstrip chars s)) as [q Hq].
  apply (lstrip_head chars s). rewrite Hq, head_app. by rewrite Hhead.
Qed.

Lemma strip_last chars s c :
  last (Str.strip chars s) = Some c → c ∉ chars.
Proof. apply rstrip_last. Qed.

Lemma not_in_dot_underscore c : c ∉ py "._" ↔ c ≠ 46 ∧ c ≠ 95.
Proof.
  change (py "._") with [46; 95].
  rewrite !not_elem_of_cons. split; [by intros (? & ? & _)|].
  intros [? ?]. split_and!; try done. apply not_elem_of_nil.
Qed.

(** X17. The sanitized part of a name never begins with a dot and never
    ends with a dot or an underscore; on a POSIX host it never begins with
    an underscore either.  So no uploaded object is named like a hidden
    file or a parent directory. *)
Theorem secure_filename_edges rt fn :
  head (secure_filename rt fn) ≠ Some 46
  ∧ last (secure_filename rt fn) ≠ Some 46
  ∧ last (secure_filename rt fn) ≠ Some 95
  ∧ (rt_os rt = Posix → head (secure_filename rt fn) ≠ Some 95).
Proof.
  unfold secure_filename. cbv zeta.
  match goal with |- context [Str.strip ?cs ?t] => set (s := Str.strip cs t) end.
  assert (∀ c, head s = Some c → c ≠ 46 ∧ c ≠ 95) as Hhead
    by (intros c Hc; by apply not_in_dot_underscore, (strip_head _ _ _ Hc)).
  assert (∀ c, last s = Some c → c ≠ 46 ∧ c ≠ 95) as Hlast
    by (intros c Hc; by apply not_in_dot_underscore, (strip_last _ _ _ Hc)).
  assert (head s ≠ Some 46 ∧ last s ≠ Some 46 ∧ last s ≠ Some 95
          ∧ head s ≠ Some 95) as (H1 & H2 & H3 & H4).
  { split_and!; intros Hc; [apply Hhead in Hc|apply Hlast in Hc
                            |apply Hlast in Hc|apply Hhead in Hc];
      by destruct Hc. }
  destruct (rt_os rt), s as [|c s'] eqn:Hs; try done.
  case_bool_decide; [|done].
  change (py "_" ++ c :: s') with (95 :: c :: s').
  by rewrite last_cons_cons.
Qed.

Lemma filename_char_plain c :
  filename_char c = true →
  c < 128 ∧ Str.isspace c = false ∧ c ≠ 47 ∧ c ≠ 92.
Proof.
  unfold filename_char, Str.is_alpha, Str.is_digit, Str.isspace.
  intros H. bools; (split_and!; [lia| |lia|lia]);
    bool_goal; (lia || (left; bool_goal; lia) || (right; bool_goal; lia)).
Qed.

Section Plain.
Variable rt : Runtime.

Lemma flat_map_decomposition_ascii s :
  Forall (λ c, c < 128) s → flat_map (Unicode.decomposition rt) s = s.
Proof.
  induction 1 as [|c s Hc Hs IH]; [done|]. simpl.
  unfold Unicode.decomposition at 1. apply N.ltb_lt in Hc. rewrite Hc.
  simpl. by rewrite IH.
Qed.

Lemma canonical_order_ascii s :
  Forall (λ c, c < 128) s → Unicode.canonical_order rt s = s.
Proof.
  intros Hs. unfold Unicode.canonical_order.
  assert (∀ acc,
            fold_left
              (λ out c, if Unicode.combining rt c =? 0 then c :: out
                        else Unicode.reorder_insert rt c out) s acc
            = rev s ++ acc) as ->.
  { induction Hs as [|c s Hc Hs IH]; intros acc; [done|].
    cbn [fold_left rev]. rewrite IH.
    unfold Unicode.combining. apply N.ltb_lt in Hc. rewrite Hc.
    change (0 =? 0) with true. cbv iota. by rewrite <- app_assoc. }
  rewrite app_nil_r. apply rev_involutive.
Qed.

Lemma encode_ascii_ignore_ascii s :
  Forall (λ c, c < 128) s → encode_ascii_ignore s = s.
Proof.
  unfold encode_ascii_ignore.
  induction 1 as [|c s Hc Hs IH]; [done|].
  rewrite filter_cons_True by done. by rewrite IH.
Qed.

Lemma replace_absent old new s :
  Forall (λ c, c ≠ old) s → Str.replace old new s = s.
Proof.
  unfold Str.replace.
  induction 1 as [|c s Hc Hs IH]; [done|]. simpl.
  apply N.eqb_neq in Hc. rewrite Hc. simpl. by rewrite IH.
Qed.

Lemma split_from_no_space cur s :
  Forall (λ c, Str.isspace c = false) s → cur ++ s ≠ [] →
  Str.split_from cur s = [rev cur ++ s].
Proof.
  intros Hs. revert cur.
  induction Hs as [|c s Hc Hs IH]; intros cur Hne.
  - rewrite app_nil_r in *. by destruct cur.
  - simpl. rewrite Hc. rewrite IH by done. simpl.
    by rewrite <- app_assoc.
Qed.

Lemma filename_ascii_strip_plain s :
  Forall (λ c, filename_char c = true) s → filename_ascii_strip s = s.
Proof.
  unfold filename_ascii_strip.
  induction 1 as [|c s Hc Hs IH]; [done|].
  rewrite filter_cons_True by done. by rewrite IH.
Qed.

(** X18. A filename that is already safe is kept as it is: made only of
    ASCII letters, digits, [_], [.] and [-], not beginning or ending with
    [.] or [_], and on Windows not a reserved device name, it becomes the
    object name unchanged behind the timestamp and the hyphen. *)
Theorem timestamped_name_keeps_safe_filename utcnow fn :
  Forall (λ c, filename_char c = true) fn →
  (∀ c, head fn = Some c → c ≠ 46 ∧ c ≠ 95) →
  (∀ c, last fn = Some c → c ≠ 46 ∧ c ≠ 95) →
  (rt_os rt = Nt →
     Str.upper (Str.before 46 fn) ∉ windows_device_files rt) →
  secure_filename rt fn = fn
  ∧ timestamped_name rt utcnow fn = strftime utcnow ++ py "-" ++ fn.
Proof.
  intros Hchars Hhead Hlast Hdev.
  assert (Forall (λ c, c < 128) fn) as Hascii
    by (eapply Forall_impl; [exact Hchars|]; intros c Hc;
        by apply filename_char_plain).
  assert (secure_filename rt fn = fn) as Hsecure.
  { unfold secure_filename, Unicode.normalize_NFKD. cbv zeta.
    rewrite flat_map_decomposition_ascii, canonical_order_ascii,
      encode_ascii_ignore_ascii by done.
    assert (fold_left
              (λ fn0 sep,
                 match sep with
                 | Some sep0 => Str.replace sep0 (py " ") fn0
                 | None => fn0
                 end)
              [Some (os_sep (rt_os rt)); os_altsep (rt_os rt)] fn = fn) as ->.
    { assert (Str.replace 47 (py " ") fn = fn) as H47
        by (apply replace_absent; eapply Forall_impl; [exact Hchars|];
            intros c Hc; by apply filename_char_plain in Hc as (_ & _ & ? & ?)).
      assert (Str.replace 92 (py " ") fn = fn) as H92
        by (apply replace_absent; eapply Forall_impl; [exact Hchars|];
            intros c Hc; by apply filename_char_plain in Hc as (_ & _ & ? & ?)).
      destruct (rt_os rt); simpl; by rewrite ?H92, ?H47. }
    assert (Str.join (py "_") (Str.split fn) = fn) as ->.
    { destruct fn as [|c fn']; [done|].
      unfold Str.split. rewrite split_from_no_space; [done| |done].
      eapply Forall_impl; [exact Hchars|]. intros a Ha.
      by apply filename_char_plain in Ha as (_ & ? & _). }
    rewrite filename_ascii_strip_plain by done.
    unfold Str.strip.
    rewrite (lstrip_id _ fn)
      by (intros c Hc; by apply not_in_dot_underscore, Hhead).
    rewrite rstrip_id
      by (intros c Hc; by apply not_in_dot_underscore, Hlast).
    destruct (rt_os rt) eqn:Hos, fn as [|c fn'] eqn:Hfn; try done.
    by rewrite bool_decide_eq_false_2 by by apply Hdev. }
  split; [done|]. unfold timestamped_name. cbv zeta. by rewrite Hsecure.
Qed.

End Plain.

(** ** Gallery URLs are plain ASCII *)

Lemma lor_lt_256 a b : a < 256 → b < 256 → N.lor a b < 256.
Proof.
  intros Ha Hb.
  destruct (N.eq_dec (N.lor a b) 0) as [->|Hne]; [done|].
  change 256 with (2 ^ 8). apply N.log2_lt_pow2; [lia|].
  rewrite N.log2_lor.
  assert (N.log2 a < 8) as Hla.
  { destruct (N.eq_dec a 0) as [->|]; [done|].
    apply N.log2_lt_pow2; [lia|done]. }
  assert (N.log2 b < 8) as Hlb.
  { destruct (N.eq_dec b 0) as [->|]; [done|].
    apply N.log2_lt_pow2; [lia|done]. }
  lia.
Qed.

Lemma land_63_lt c : N.land c 63 < 256.
Proof.
  change 63 with (N.ones 6). rewrite N.land_ones.
  change (2 ^ 6) with 64. lia_div.
Qed.

Lemma land_63_lor c : N.lor 128 (N.land c 63) < 256.
Proof. apply lor_lt_256; [done|apply land_63_lt]. Qed.

Lemma utf8_encode_char_bytes c bs :
  c < 1114112 → utf8_encode_char c = Ok bs → Forall (λ b, b < 256) bs.
Proof.
  intros Hc. unfold utf8_encode_char.
  destruct (N.ltb_spec c 128) as [H1|H1].
  { intros [= <-]. repeat constructor. lia. }
  destruct (N.ltb_spec c 2048) as [H2|H2].
  { intros [= <-]. repeat constructor; [|apply land_63_lor].
    apply lor_lt_256; [done|]. rewrite N.shiftr_div_pow2.
    change (2 ^ 6) with 64. lia_div. }
  destruct (N.ltb_spec c 65536) as [H3|H3].
  { destruct ((55296 <=? c) && (c <=? 57343)); [done|].
    intros [= <-]. repeat constructor; try apply land_63_lor.
    apply lor_lt_256; [done|]. rewrite N.shiftr_div_pow2.
    change (2 ^ 12) with 4096. lia_div. }
  intros [= <-]. repeat constructor; try apply land_63_lor.
  apply lor_lt_256; [done|]. rewrite N.shiftr_div_pow2.
  change (2 ^ 18) with 262144. lia_div.
Qed.

Lemma utf8_encode_bytes s bs :
  Forall (λ c, c < 1114112) s → utf8_encode s = Ok bs →
  Forall (λ b, b < 256) bs.
Proof.
  unfold utf8_encode. intros Hs. revert bs.
  induction Hs as [|c s Hc Hs IH]; intros bs; simpl.
  - intros [= <-]. constructor.
  - destruct (utf8_encode_char c) as [b|] eqn:Hb; [|done]. simpl.
    destruct (result_map utf8_encode_char s) as [bss|]; [|done]. simpl.
    intros [= <-]. simpl. apply Forall_app_2.
    + by apply (utf8_encode_char_bytes c).
    + by apply IH.
Qed.

Lemma hex_digit_safe d : d < 16 → always_safe (hex_digit d) = true.
Proof.
  intros Hd. unfold hex_digit, always_safe, Str.is_alpha, Str.is_digit.
  destruct (N.ltb_spec d 10).
  - assert ((48 <=? 48 + d) && (48 + d <=? 57) = true) as ->
      by (apply andb_true_iff; split; apply N.leb_le; lia).
    by rewrite orb_true_r.
  - assert ((65 <=? 55 + d) && (55 + d <=? 90) = true) as ->
      by (apply andb_true_iff; split; apply N.leb_le; lia).
    done.
Qed.

Lemma quoter_chars b :
  b < 256 → Forall (λ c, url_char c = true) (quoter b).
Proof.
  intros Hb. unfold quoter, url_char.
  destruct (always_safe b || (b =? 47)) eqn:Hsafe.
  - repeat constructor. by rewrite Hsafe.
  - repeat constructor.
    + rewrite hex_digit_safe; [done|lia_div].
    + rewrite hex_digit_safe; [done|lia_div].
Qed.

Lemma quote_chars s q :
  Forall (λ c, c < 1114112) s → quote s = Ok q →
  Forall (λ c, url_char c = true) q.
Proof.
  intros Hs. unfold quote.
  destruct (utf8_encode s) as [bs|] eqn:Hbs; [|done]. simpl.
  intros [= <-].
  pose proof (utf8_encode_bytes s bs Hs Hbs) as Hbytes. clear Hbs.
  induction Hbytes as [|b bs Hb Hbytes IH]; simpl; [constructor|].
  apply Forall_app_2; [by apply quoter_chars|done].
Qed.

(** X19. The URLs of a gallery are plain ASCII: when the stored names are
    Python strings (code points below U+110000), every URL of a successful
    gallery is the container URL, a slash, and a text made only of
    unreserved characters, slashes and percent signs. *)
Theorem gallery_urls_are_ascii app gw resp gw' :
  gallery app gw = (Ok resp, gw') →
  field "ok" resp = Some (JBool true) →
  (∀ name, is_Some (blobs gw !! name) → Forall (λ c, c < 1114112) name) →
  ∃ urls,
    field "gallery" resp = Some (JList urls)
    ∧ Forall (λ url, ∃ quoted,
                url = container_url app ++ py "/" ++ quoted
                ∧ Forall (λ c, url_char c = true) quoted) urls.
Proof.
  intros Hg Hok Hvalid.
  destruct (gallery_ok_inv _ _ _ _ Hg Hok) as (names & urls & Hlist & Hmap & ->).
  apply list_blobs_ok_names in Hlist as [_ Hnames].
  exists (sort_reverse urls). split; [done|].
  apply Forall_forall. intros url Hurl.
  unfold sort_reverse in Hurl. rewrite merge_sort_Permutation in Hurl.
  destruct (result_map_elem_inv _ _ _ _ Hmap Hurl) as (name & Hname & Hq).
  unfold blob_url in Hq.
  destruct (quote name) as [quoted|] eqn:Hquote; [|done].
  injection Hq as <-. exists quoted. split; [done|].
  apply (quote_chars name); [|done]. by apply Hvalid, Hnames.
Qed.

(** ** Start-up, then upload *)

(** X20. After a start-up that succeeded on a gateway that fails no call,
    the container exists, and an upload of an image within the limit is
    answered with [ok:true]. *)
Theorem upload_after_startup rt environ gw app gw1 utcnow req f :
  (∀ op, faults gw op = None) →
  startup environ gw = (Ok app, gw1) →
  content_length req ≤ MAX_CONTENT_LENGTH →
  form_files req !! py "file" = Some f →
  filename f ≠ py "" →
  is_image f = true →
  is_Some (container gw1)
  ∧ upload rt app utcnow req gw1
    = (Ok (uploaded (container_url app ++ py "/"
                     ++ timestamped_name rt utcnow (filename f))),
       put_blob (timestamped_name rt utcnow (filename f))
         {| blob_data := stream f; blob_content_type := mimetype f |} gw1).
Proof.
  intros Hfaults Hstart Hlen Hfile Hname Himg.
  destruct (startup_ok_inv _ _ _ _ Hstart)
    as (url & conn & Hurl & Hu & Hconn & Hc & Hclient).
  rewrite (startup_cases environ gw url conn) in Hstart by done.
  cbv zeta in Hstart. unfold create_container in Hstart.
  rewrite Hfaults in Hstart.
  assert (is_Some (container gw1) ∧ faults gw1 = faults gw) as [[acc Hacc] Hf].
  { destruct (container gw) as [acc|] eqn:Hcont.
    - simpl in Hstart. injection Hstart as _ <-. by rewrite Hcont.
    - injection Hstart as _ <-. simpl. by eauto. }
  split; [by eexists|].
  apply upload_ok_intro; try done.
  unfold upload_blob. by rewrite Hf, Hfaults, Hacc.
Qed.

(** ** Distinct names, distinct URLs *)

Lemma lor_disjoint a x n :
  x < 2 ^ n → N.land a x = 0 → N.lor a x = a + x.
Proof.
  intros _ Hland. rewrite <- (N.lxor_lor a x) by done.
  symmetry. by apply N.add_nocarry_lxor.
Qed.

Lemma land_high_low a k x :
  x < 2 ^ k → N.land (a * 2 ^ k) x = 0.
Proof.
  intros Hx. apply N.bits_inj_0. intros i.
  rewrite N.land_spec.
  destruct (N.ltb_spec i k).
  - by rewrite N.mul_pow2_bits_low.
  - assert (N.testbit x i = false) as ->; [|apply andb_false_r].
    destruct (N.eq_dec x 0) as [->|]; [apply N.bits_0|].
    apply N.bits_above_log2.
    assert (N.log2 x < k) by (apply N.log2_lt_pow2; lia). lia.
Qed.

Lemma lor_128 x : x < 64 → N.lor 128 x = 128 + x.
Proof.
  intros Hx. apply (lor_disjoint _ _ 6); [done|].
  change 128 with (2 * 2 ^ 6). by apply land_high_low.
Qed.

Lemma lor_192 x : x < 32 → N.lor 192 x = 192 + x.
Proof.
  intros Hx. apply (lor_disjoint _ _ 5); [done|].
  change 192 with (6 * 2 ^ 5). by apply land_high_low.
Qed.

Lemma lor_224 x : x < 16 → N.lor 224 x = 224 + x.
Proof.
  intros Hx. apply (lor_disjoint _ _ 4); [done|].
  change 224 with (14 * 2 ^ 4). by apply land_high_low.
Qed.

Lemma lor_240 x : x < 8 → N.lor 240 x = 240 + x.
Proof.
  intros Hx. apply (lor_disjoint _ _ 3); [done|].
  change 240 with (30 * 2 ^ 3). by apply land_high_low.
Qed.

Lemma land_63 c : N.land c 63 = c mod 64.
Proof. change 63 with (N.ones 6). by rewrite N.land_ones. Qed.

(** The encoding of one code point, in arithmetic. *)
Lemma utf8_encode_char_arith c :
  c < 1114112 →
  utf8_encode_char c =
    if c <? 128 then Ok [c]
    else if c <? 2048 then Ok [192 + c / 64; 128 + c mod 64]
    else if c <? 65536 then
      if is_surrogate c
      then Raise (Exn UnicodeEncodeError
                    (py "'utf-8' codec can't encode character: surrogates not allowed"))
      else Ok [224 + c / 4096; 128 + (c / 64) mod 64; 128 + c mod 64]
    else Ok [240 + c / 262144; 128 + (c / 4096) mod 64;
             128 + (c / 64) mod 64; 128 + c mod 64].
Proof.
  intros Hc. unfold utf8_encode_char, is_surrogate.
  rewrite !land_63, !N.shiftr_div_pow2.
  change (2 ^ 6) with 64. change (2 ^ 12) with 4096.
  change (2 ^ 18) with 262144.
  assert (∀ x, N.lor 128 (x mod 64) = 128 + x mod 64) as Hlow
    by (intros x; apply lor_128; lia_div).
  rewrite !Hlow.
  destruct (N.ltb_spec c 128); [done|].
  destruct (N.ltb_spec c 2048); [by rewrite lor_192 by lia_div|].
  destruct (N.ltb_spec c 65536).
  - destruct (_ && _); [done|]. by rewrite lor_224 by lia_div.
  - by rewrite lor_240 by lia_div.
Qed.

Lemma utf8_encode_char_prefix_free c c' bs bs' r r' :
  c < 1114112 → c' < 1114112 →
  utf8_encode_char c = Ok bs → utf8_encode_char c' = Ok bs' →
  bs ++ r = bs' ++ r' → c = c' ∧ r = r'.
Proof.
  intros Hc Hc'. rewrite !utf8_encode_char_arith by done.
  destruct (N.ltb_spec c 128); [|destruct (N.ltb_spec c 2048);
    [|destruct (N.ltb_spec c 65536); [destruct (is_surrogate c); [done|]|]]];
  (destruct (N.ltb_spec c' 128); [|destruct (N.ltb_spec c' 2048);
    [|destruct (N.ltb_spec c' 65536); [destruct (is_surrogate c'); [done|]|]]]);
  intros [= <-] [= <-]; simpl; intros Heq; simplify_eq;
  try (split; [lia_div|done]); exfalso; lia_div.
Qed.

Lemma utf8_encode_char_nonempty c bs :
  utf8_encode_char c = Ok bs → bs ≠ [].
Proof.
  unfold utf8_encode_char. repeat case_match; by intros [= <-].
Qed.

Lemma utf8_encode_inj s s' bs :
  Forall (λ c, c < 1114112) s → Forall (λ c, c < 1114112) s' →
  utf8_encode s = Ok bs → utf8_encode s' = Ok bs → s = s'.
Proof.
  unfold utf8_encode. intros Hs. revert s' bs.
  induction Hs as [|c s Hc Hs IH]; intros s' bs Hs'; simpl.
  - intros [= <-]. destruct Hs' as [|c' s' Hc' Hs']; [done|]. simpl.
    destruct (utf8_encode_char c') as [b'|] eqn:Hb'; [|done]. simpl.
    destruct (result_map utf8_encode_char s'); [|done]. simpl.
    pose proof (utf8_encode_char_nonempty _ _ Hb').
    by destruct b'.
  - destruct (utf8_encode_char c) as [b|] eqn:Hb; [|done]. simpl.
    destruct (result_map utf8_encode_char s) as [bss|] eqn:Hbss; [|done].
    simpl. intros [= <-].
    destruct Hs' as [|c' s' Hc' Hs']; simpl.
    + pose proof (utf8_encode_char_nonempty _ _ Hb).
      by destruct b.
    + destruct (utf8_encode_char c') as [b'|] eqn:Hb'; [|done]. simpl.
      destruct (result_map utf8_encode_char s') as [bss'|] eqn:Hbss'; [|done].
      simpl. intros [= Heq].
      destruct (utf8_encode_char_prefix_free c' c b' b _ _ Hc' Hc Hb' Hb Heq)
        as [-> Hrest].
      f_equal. apply (IH s' (concat bss)); [done|done|].
      rewrite Hbss'. simpl. by rewrite Hrest.
Qed.

Lemma hex_digit_inj d d' :
  d < 16 → d' < 16 → hex_digit d = hex_digit d' → d = d'.
Proof.
  unfold hex_digit. intros Hd Hd'.
  destruct (N.ltb_spec d 10), (N.ltb_spec d' 10); lia.
Qed.

Lemma quoter_prefix_free b b' r r' :
  b < 256 → b' < 256 → quoter b ++ r = quoter b' ++ r' → b = b' ∧ r = r'.
Proof.
  intros Hb Hb'. unfold quoter.
  destruct (always_safe b || (b =? 47)) eqn:Hsafe,
           (always_safe b' || (b' =? 47)) eqn:Hsafe'; simpl; intros Heq.
  - by simplify_eq.
  - injection Heq as -> _. by vm_compute in Hsafe.
  - injection Heq as <- _. by vm_compute in Hsafe'.
  - injection Heq as Hhi Hlo ->.
    apply hex_digit_inj in Hhi; [|lia_div..].
    apply hex_digit_inj in Hlo; [|lia_div..].
    split; [lia_div|done].
Qed.

Lemma flat_map_quoter_inj bs bs' :
  Forall (λ b, b < 256) bs → Forall (λ b, b < 256) bs' →
  flat_map quoter bs = flat_map quoter bs' → bs = bs'.
Proof.
  intros Hbs. revert bs'.
  induction Hbs as [|b bs Hb Hbs IH]; intros bs' Hbs'; simpl.
  - destruct Hbs' as [|b' bs' Hb' Hbs']; [done|]. simpl.
    unfold quoter at 1. by case_match.
  - destruct Hbs' as [|b' bs' Hb' Hbs']; simpl.
    + unfold quoter at 1. by case_match.
    + intros Heq.
      destruct (quoter_prefix_free b b' _ _ Hb Hb' Heq) as [-> Hrest].
      f_equal. by apply IH.
Qed.

Lemma quote_inj s s' q :
  Forall (λ c, c < 1114112) s → Forall (λ c, c < 1114112) s' →
  quote s = Ok q → quote s' = Ok q → s = s'.
Proof.
  intros Hs Hs'. unfold quote.
  destruct (utf8_encode s) as [bs|] eqn:Hbs; [|done].
  destruct (utf8_encode s') as [bs'|] eqn:Hbs'; [|done].
  simpl. intros [= <-] [= Heq].
  pose proof (utf8_encode_bytes s bs Hs Hbs).
  pose proof (utf8_encode_bytes s' bs' Hs' Hbs').
  apply flat_map_quoter_inj in Heq; [|done..].
  subst bs'. by apply (utf8_encode_inj s s' bs).
Qed.

Lemma blob_url_inj app name name' url :
  Forall (λ c, c < 1114112) name → Forall (λ c, c < 1114112) name' →
  blob_url app name = Ok url → blob_url app name' = Ok url →
  name = name'.
Proof.
  intros Hn Hn'. unfold blob_url.
  destruct (quote name) as [q|] eqn:Hq; [|done].
  destruct (quote name') as [q'|] eqn:Hq'; [|done].
  simpl. intros [= <-] [= Heq].
  apply app_inv_head in Heq.
  apply (app_inv_head (py "/")) in Heq. subst q'.
  by apply (quote_inj name name' q).
Qed.

(** X21. Two stored names never share a URL: when the names are Python
    strings (code points below U+110000) and the module builds the same
    URL for both, they are the same name. *)
Theorem blob_url_injective app name name' url :
  Forall (λ c, c < 1114112) name → Forall (λ c, c < 1114112) name' →
  blob_url app name = Ok url → blob_url app name' = Ok url →
  name = name'.
Proof. apply blob_url_inj. Qed.

Lemma result_map_NoDup {A B} (f : A → result B) l ys :
  NoDup l →
  (∀ x y u, x ∈ l → y ∈ l → f x = Ok u → f y = Ok u → x = y) →
  result_map f l = Ok ys → NoDup ys.
Proof.
  intros Hnd. revert ys.
  induction Hnd as [|a l Ha Hnd IH]; intros ys Hinj; simpl.
  - intros [= <-]. constructor.
  - destruct (f a) as [b|] eqn:Hfa; [|done]. simpl.
    destruct (result_map f l) as [ys'|] eqn:Hl; [|done]. simpl.
    intros [= <-]. constructor.
    + intros Hb.
      destruct (result_map_elem_inv _ _ _ _ Hl Hb) as (x & Hx & Hfx).
      apply Ha. rewrite (Hinj a x b); [done| | |done|done].
      * apply elem_of_cons. by left.
      * apply elem_of_cons. by right.
    + apply IH; [|done]. intros x y u Hx Hy.
      apply Hinj; apply elem_of_cons; by right.
Qed.

(** X22. A successful gallery shows no URL twice, when the stored names
    are Python strings. *)
Theorem gallery_no_duplicates app gw resp gw' :
  gallery app gw = (Ok resp, gw') →
  field "ok" resp = Some (JBool true) →
  (∀ name, is_Some (blobs gw !! name) → Forall (λ c, c < 1114112) name) →
  ∃ urls, field "gallery" resp = Some (JList urls) ∧ NoDup urls.
Proof.
  intros Hg Hok Hvalid.
  destruct (gallery_ok_inv _ _ _ _ Hg Hok) as (names & urls & Hlist & Hmap & ->).
  pose proof (list_blobs_ok_names _ _ _ Hlist) as [_ Hnames].
  exists (sort_reverse urls). split; [done|].
  unfold sort_reverse. rewrite merge_sort_Permutation.
  apply (result_map_NoDup (blob_url app) names); [| |done].
  - unfold list_blobs in Hlist.
    destruct (faults gw OpListBlobs); [done|].
    destruct (container gw); [|done].
    injection Hlist as <- _. apply NoDup_fst_map_to_list.
  - intros x y u Hx Hy. apply blob_url_inj; by apply Hvalid, Hnames.
Qed.

(** * The further properties on the sample deployment *)

Lemma sample_names_valid gw :
  bool_decide (map_Forall (λ name _, Forall (λ c, c < 1114112) name) (blobs gw))
  = true →
  ∀ name, is_Some (blobs gw !! name) → Forall (λ c, c < 1114112) name.
Proof.
  intros Hall name [b Hb]. apply bool_decide_eq_true in Hall.
  by apply (Hall name b).
Qed.

Lemma startup_requires_settings_sample :
  startup Sample.incomplete_environ Sample.fresh_gateway
  = (Raise missing_settings, Sample.fresh_gateway).
Proof.
  apply startup_requires_settings. right. by vm_compute.
Defined.

Lemma startup_other_error_propagates_sample :
  startup Sample.environ Sample.failing_gateway
  = (Raise Sample.connection_reset, Sample.failing_gateway)
  ∧ Sample.failing_gateway = Sample.failing_gateway.
Proof.
  apply (startup_other_error_propagates Sample.environ Sample.failing_gateway
           (py "https://acct.blob.core.windows.net")
           (py "UseDevelopmentStorage=true"));
    by vm_compute.
Defined.

Lemma startup_repeatable_sample :
  startup Sample.environ (set_container PublicBlob Sample.fresh_gateway)
  = (Ok Sample.app, set_container PublicBlob Sample.fresh_gateway).
Proof.
  apply (startup_repeatable Sample.environ Sample.fresh_gateway).
  by vm_compute.
Defined.


Lemma upload_writes_one_object_sample :
  ∃ f,
    form_files (Sample.request_with 120 Sample.cat) !! py "file" = Some f
    ∧ Sample.stored_gateway
      = put_blob (timestamped_name Sample.runtime Sample.clock (filename f))
          {| blob_data := stream f; blob_content_type := mimetype f |}
          Sample.gateway
    ∧ container Sample.stored_gateway = container Sample.gateway
    ∧ (∀ other,
         other ≠ timestamped_name Sample.runtime Sample.clock (filename f) →
         blobs Sample.stored_gateway !! other = blobs Sample.gateway !! other).
Proof.
  apply (upload_writes_one_object Sample.runtime Sample.app Sample.clock
           (Sample.request_with 120 Sample.cat) Sample.gateway
           Sample.cat_response);
    by vm_compute.
Defined.

Lemma upload_failure_writes_nothing_sample :
  Sample.failing_gateway = Sample.failing_gateway.
Proof.
  apply (upload_failure_writes_nothing Sample.runtime Sample.app Sample.clock
           (Sample.request_with 120 Sample.cat) Sample.failing_gateway
           (failure (exn_str Sample.connection_reset) 500));
    by vm_compute.
Defined.

Lemma upload_same_second_overwrites_sample :
  field "url" Sample.cat_response = field "url" Sample.cat_response
  ∧ upload Sample.runtime Sample.app Sample.clock
      (Sample.request_with 120 Sample.cat2) Sample.gateway
    = (Ok Sample.cat_response, Sample.restored_gateway)
  ∧ blobs Sample.restored_gateway
      !! timestamped_name Sample.runtime Sample.clock (filename Sample.cat)
    = Some {| blob_data := stream Sample.cat2;
              blob_content_type := mimetype Sample.cat2 |}.
Proof.
  apply (upload_same_second_overwrites Sample.runtime Sample.app Sample.clock
           (Sample.request_with 120 Sample.cat)
           (Sample.request_with 120 Sample.cat2)
           Sample.cat Sample.cat2 Sample.gateway
           Sample.cat_response Sample.stored_gateway);
    by vm_compute.
Defined.

Lemma gallery_lists_every_object_sample :
  ∃ urls,
    field "gallery" Sample.gallery_response = Some (JList urls)
    ∧ length urls = size (blobs Sample.gateway)
    ∧ (∀ name, is_Some (blobs Sample.gateway !! name) →
         ∃ url, blob_url Sample.app name = Ok url ∧ url ∈ urls)
    ∧ (∀ url, url ∈ urls →
         ∃ name, is_Some (blobs Sample.gateway !! name)
                 ∧ blob_url Sample.app name = Ok url).
Proof.
  apply (gallery_lists_every_object Sample.app Sample.gateway
           Sample.gallery_response Sample.gateway);
    by vm_compute.
Defined.


Lemma uploaded_in_gallery_sample :
  ∃ url urls,
    field "url" Sample.cat_response = Some (JStr url)
    ∧ field "gallery"
        (listing
           [py "https://acct.blob.core.windows.net/lanternfly-images/old%20photo.png";
            py "https://acct.blob.core.windows.net/lanternfly-images/20240103T123045-my_cat.png";
            py "https://acct.blob.core.windows.net/lanternfly-images/20240102T000000-b.jpg";
            py "https://acct.blob.core.windows.net/lanternfly-images/20240101T000000-a.jpg"])
      = Some (JList urls)
    ∧ url ∈ urls.
Proof.
  apply (uploaded_in_gallery Sample.runtime Sample.app Sample.clock
           (Sample.request_with 120 Sample.cat) Sample.gateway
           Sample.cat_response Sample.stored_gateway _ Sample.stored_gateway);
    by vm_compute.
Defined.

Lemma sample_clocks :
  valid_datetime Sample.clock ∧ valid_datetime Sample.later_clock
  ∧ earlier Sample.clock Sample.later_clock.
Proof.
  unfold valid_datetime, earlier, Sample.clock, Sample.later_clock. simpl.
  lia.
Defined.

Lemma timestamped_name_sortable_sample :
  Str.leb (timestamped_name Sample.runtime Sample.clock (py "zebra.png"))
    (timestamped_name Sample.runtime Sample.later_clock (py "ant.png"))
  = true
  ∧ Str.leb (timestamped_name Sample.runtime Sample.later_clock (py "ant.png"))
      (timestamped_name Sample.runtime Sample.clock (py "zebra.png"))
    = false.
Proof.
  apply timestamped_name_sortable; apply sample_clocks.
Defined.

Lemma gallery_newest_first_sample :
  ∃ urls l1 l2 l3,
    field "gallery" Sample.album_response = Some (JList urls)
    ∧ urls
      = l1 ++ (container_url Sample.app ++ py "/"
               ++ timestamped_name Sample.runtime Sample.later_clock
                    (filename Sample.dog))
           :: l2 ++ (container_url Sample.app ++ py "/"
                     ++ timestamped_name Sample.runtime Sample.clock
                          (filename Sample.cat))
           :: l3.
Proof.
  apply (gallery_newest_first Sample.runtime Sample.app Sample.clock
           Sample.later_clock (filename Sample.cat) (filename Sample.dog)
           Sample.album Sample.album_response Sample.album);
    try apply sample_clocks;
    first [by vm_compute | vm_compute; by eexists].
Defined.

Lemma timestamped_name_keeps_safe_filename_sample :
  secure_filename Sample.runtime (py "cat-01.final.png") = py "cat-01.final.png"
  ∧ timestamped_name Sample.runtime Sample.clock (py "cat-01.final.png")
    = strftime Sample.clock ++ py "-" ++ py "cat-01.final.png".
Proof.
  apply timestamped_name_keeps_safe_filename.
  - apply (bool_decide_unpack _). by vm_compute.
  - intros c Hc. vm_compute in Hc. injection Hc as <-. by vm_compute.
  - intros c Hc. vm_compute in Hc. injection Hc as <-. by vm_compute.
  - intros Hos. by vm_compute in Hos.
Defined.

Lemma gallery_urls_are_ascii_sample :
  ∃ urls,
    field "gallery" Sample.gallery_response = Some (JList urls)
    ∧ Forall (λ url, ∃ quoted,
                url = container_url Sample.app ++ py "/" ++ quoted
                ∧ Forall (λ c, url_char c = true) quoted) urls.
Proof.
  apply (gallery_urls_are_ascii Sample.app Sample.gateway
           Sample.gallery_response Sample.gateway);
    [by vm_compute..|].
  apply sample_names_valid. by vm_compute.
Defined.

Lemma upload_after_startup_sample :
  is_Some (container (set_container PublicBlob Sample.fresh_gateway))
  ∧ upload Sample.runtime Sample.app Sample.clock
      (Sample.request_with 120 Sample.cat)
      (set_container PublicBlob Sample.fresh_gateway)
    = (Ok (uploaded (container_url Sample.app ++ py "/"
                     ++ timestamped_name Sample.runtime Sample.clock
                          (filename Sample.cat))),
       put_blob (timestamped_name Sample.runtime Sample.clock
                   (filename Sample.cat))
         {| blob_data := stream Sample.cat;
            blob_content_type := mimetype Sample.cat |}
         (set_container PublicBlob Sample.fresh_gateway)).
Proof.
  apply (upload_after_startup Sample.runtime Sample.environ
           Sample.fresh_gateway);
    by vm_compute.
Defined.

Lemma blob_url_injective_sample : py "old photo.png" = py "old photo.png".
Proof.
  apply (blob_url_injective Sample.app (py "old photo.png") (py "old photo.png")
           (py "https://acct.blob.core.windows.net/lanternfly-images/old%20photo.png"));
    try (apply (bool_decide_unpack _); by vm_compute); by vm_compute.
Defined.

Lemma gallery_no_duplicates_sample :
  ∃ urls,
    field "gallery" Sample.gallery_response = Some (JList urls) ∧ NoDup urls.
Proof.
  apply (gallery_no_duplicates Sample.app Sample.gateway
           Sample.gallery_response Sample.gateway);
    [by vm_compute..|].
  apply sample_names_valid. by vm_compute.
Defined.
